(** * Pattern matching on cumulative-return paths: a shallow embedding of
    [app.py] (class [PatternMatcher]) and the properties of its ranking scans.

    Layout of the development:
    - [F64]: numpy's float64 as IEEE binary64, through the Standard Library's
      executable specification [SpecFloat] (53-bit mantissa, emax 1024);
    - [result]: Python exceptions as an error monad, [try_except] for the bare
      [except:] clauses of the source;
    - [Timestamp], [Row], [DataFrame]: the date-indexed price table;
    - [World]: the state the code reads besides its arguments
      ([datetime.now()] and the class attributes of [Config]);
    - [Numpy], [Pandas]: the two library calls whose result the source does not
      determine ([np.corrcoef], [DataFrame.sort_values]) as interfaces;
    - [PatternMatcher]: the methods, in source order;
    - instances of the interfaces and a small data set to run the model on;
    - facts about binary64, the sorts, the frame operations and the scans;
    - the properties of the scans and of the correlation primitives. *)

From Stdlib Require Import String DecimalString ZArith List Bool Lia Permutation Sorted.
From Stdlib Require Import SpecFloat.
From Stdlib Require DecimalPos DecimalZ.
Import ListNotations.
Local Open Scope Z_scope.

(* ================================================================== *)
(** ** float64 *)
(* ================================================================== *)

Definition float : Type := spec_float.

Module F64.

Definition prec : Z := 53.
Definition emax : Z := 1024.

Definition nan : float := S754_nan.

Definition isnan (x : float) : bool :=
  match x with S754_nan => true | _ => false end.

(** Integer literals ([1], [100], [-1]) are exact in binary64. *)
Definition of_Z (z : Z) : float := binary_normalize prec emax z 0 false.

Definition add : float -> float -> float := SFadd prec emax.
Definition sub : float -> float -> float := SFsub prec emax.
Definition mul : float -> float -> float := SFmul prec emax.
Definition div : float -> float -> float := SFdiv prec emax.
Definition sqrt : float -> float := SFsqrt prec emax.

(** Python's [x == y], [x < y], [x <= y], [x >= y]; all four are [False] on
    NaN. *)
Definition eqb (x y : float) : bool := SFeqb x y.
Definition ltb (x y : float) : bool := SFltb x y.
Definition leb (x y : float) : bool := SFleb x y.
Definition geb (x y : float) : bool := SFleb y x.

Definition one : float := of_Z 1.
Definition hundred : float := of_Z 100.

(** A decimal literal [n/10^k] such as [0.70]: the correctly rounded
    quotient of two exactly representable integers is the double nearest
    to the decimal, which is what Python's parser yields. *)
Definition of_ratio (n d : Z) : float := div (of_Z n) (of_Z d).

(** Finite and strictly positive: what the data model calls a price. *)
Definition positive_finite (x : float) : Prop :=
  match x with S754_finite false _ _ => True | _ => False end.

End F64.

(* ================================================================== *)
(** ** Exceptions *)
(* ================================================================== *)

Inductive exn : Type :=
| ValueError (msg : string)
| IndexError
| LibraryError (code : Z).

Inductive result (A : Type) : Type :=
| Ok (a : A)
| Raise (e : exn).

Arguments Ok {A} a.
Arguments Raise {A} e.

Definition bind {A B : Type} (m : result A) (k : A -> result B) : result B :=
  match m with
  | Ok a => k a
  | Raise e => Raise e
  end.

Notation "x <- m ;; k" := (bind m (fun x => k))
  (at level 61, m at next level, right associativity).

(** [try: body / except: return handler] with a bare [except:]. *)
Definition try_except {A : Type} (body : result A) (handler : A) : A :=
  match body with
  | Ok a => a
  | Raise _ => handler
  end.

(** The call returned normally and its value satisfies [P]. *)
Definition returns_with {A : Type} (P : A -> Prop) (r : result A) : Prop :=
  match r with
  | Ok a => P a
  | Raise _ => False
  end.

(* ================================================================== *)
(** ** The price table *)
(* ================================================================== *)

Record Timestamp : Type := mkTimestamp { year : Z; month : Z; day : Z }.

(** One row of the frame built by [fetch_data]: the [DatetimeIndex] entry and
    the three columns the matcher reads or could read. *)
Record Row : Type := mkRow
  { index : Timestamp;
    adjusted_close : float;
    returns : float;
    cum_returns : float }.

Definition DataFrame : Type := list Row.

(** [df.empty] *)
Definition empty (df : DataFrame) : bool :=
  match df with [] => true | _ => false end.

(** [s.iloc[:n]] for a non-negative [n]. *)
Definition iloc_to {A : Type} (n : nat) (s : list A) : list A := firstn n s.

(** [s.iloc[0]]: IndexError on an empty series. *)
Definition iloc_first {A : Type} (s : list A) : result A :=
  match s with
  | [] => Raise IndexError
  | x :: _ => Ok x
  end.

(** [s.iloc[-1]]: IndexError on an empty series. *)
Fixpoint iloc_last {A : Type} (s : list A) : result A :=
  match s with
  | [] => Raise IndexError
  | [x] => Ok x
  | _ :: t => iloc_last t
  end.

(** [df.head(n)] is [df.iloc[:n]]: a negative [n] drops the last [-n] rows. *)
Definition head {A : Type} (n : Z) (df : list A) : list A :=
  if 0 <=? n then firstn (Z.to_nat n) df
  else firstn (length df - Z.to_nat (- n)) df.

(** [a[mask]] for a boolean mask of the same length. *)
Fixpoint boolean_index {A : Type} (a : list A) (mask : list bool) : list A :=
  match a, mask with
  | x :: a', b :: mask' =>
      if b then x :: boolean_index a' mask' else boolean_index a' mask'
  | _, _ => []
  end.

(** [mask.sum()] *)
Definition mask_sum (mask : list bool) : nat :=
  length (filter (fun b => b) mask).

(** [np.cumprod]: running product, NaN propagates to the right. *)
Fixpoint np_cumprod_from (acc : float) (xs : list float) : list float :=
  match xs with
  | [] => []
  | x :: xs' => let acc' := F64.mul acc x in acc' :: np_cumprod_from acc' xs'
  end.

Definition np_cumprod (xs : list float) : list float :=
  match xs with
  | [] => []
  | x :: xs' => x :: np_cumprod_from x xs'
  end.

(** [Series.cumprod()] with pandas' default [skipna=True]: missing entries are
    replaced by [1.0] for the accumulation and put back as NaN afterwards. *)
Definition Series_cumprod (xs : list float) : list float :=
  let vals := map (fun x => if F64.isnan x then F64.one else x) xs in
  map (fun p : float * float => if F64.isnan (fst p) then F64.nan else snd p)
      (combine xs (np_cumprod vals)).

(** [sorted(index.year.unique())]: distinct values in order of first
    appearance, then ascending. *)
Fixpoint unique (l : list Z) : list Z :=
  match l with
  | [] => []
  | x :: l' => x :: filter (fun y => negb (y =? x)) (unique l')
  end.

Fixpoint insert_sorted (x : Z) (l : list Z) : list Z :=
  match l with
  | [] => [x]
  | y :: l' => if x <=? y then x :: l else y :: insert_sorted x l'
  end.

Definition sorted (l : list Z) : list Z := fold_right insert_sorted [] l.

(* ================================================================== *)
(** ** State read by the code besides its arguments *)
(* ================================================================== *)

(** The mutable class attributes of [Config] the matcher reads, and the host
    clock.  One analysis call reads the clock several times; the model takes
    one reading per call (a call does not straddle midnight). *)
Record World : Type := mkWorld
  { now : Timestamp;
    TOP_N_SIMILAR : Z }.

(* ================================================================== *)
(** ** Library interfaces *)
(* ================================================================== *)

(** [np.corrcoef(x, y)]: the 2x2 correlation matrix.  Its floating-point value
    depends on the summation order of the installed BLAS, and like any call
    under a bare [except:] it is allowed to raise. *)
Class Numpy : Type :=
  { corrcoef : list float -> list float -> result (list (list float)) }.

(** [m[i, j]] on a nested array. *)
Definition getitem2 (m : list (list float)) (i j : nat) : result float :=
  match nth_error m i with
  | None => Raise IndexError
  | Some r =>
      match nth_error r j with
      | None => Raise IndexError
      | Some x => Ok x
      end
  end.

(** [df.sort_values(col, ascending=False)] with pandas' default
    [kind='quicksort']: the rows come back rearranged with the column
    non-increasing; the documentation promises no more (only [mergesort] and
    [stable] keep the order of equal keys). *)
Class Pandas : Type :=
  { sort_values_desc : forall A : Type, (A -> float) -> list A -> list A;
    sort_values_desc_perm :
      forall (A : Type) (key : A -> float) (df : list A),
        Permutation (sort_values_desc A key df) df;
    sort_values_desc_sorted :
      forall (A : Type) (key : A -> float) (df : list A),
        Forall (fun r => F64.isnan (key r) = false) df ->
        Sorted (fun a b => F64.geb (key a) (key b) = true)
               (sort_values_desc A key df) }.

Arguments sort_values_desc {_} [A] key df.

(* ================================================================== *)
(** ** Result rows *)
(* ================================================================== *)

(** The dictionaries appended by [find_similar_years]. *)
Module YearRow.
Record t : Type := mk
  { year : Z;
    correlation : float;
    year_return : float;
    ytd_return_at_similar_point : float }.
End YearRow.

(** The dictionaries appended by [find_similar_quarters]. *)
Module QuarterRow.
Record t : Type := mk
  { year : Z;
    quarter : Z;
    year_quarter : string;
    correlation : float;
    quarter_return : float }.
End QuarterRow.

(** [f"{year}-Q{quarter}"] *)
Definition str_of_int (z : Z) : string :=
  DecimalString.NilZero.string_of_int (Z.to_int z).

Definition year_quarter_label (y q : Z) : string :=
  (str_of_int y ++ "-Q" ++ str_of_int q)%string.

(* ================================================================== *)
(** ** class PatternMatcher *)
(* ================================================================== *)

Record PatternMatcher : Type := mkPatternMatcher
  { data : DataFrame;
    current_year : Z }.

(** [PatternMatcher.__init__] *)
Definition PatternMatcher_init (w : World) (d : DataFrame) : result PatternMatcher :=
  if empty d then Raise (ValueError "DataFrame vuoto")
  else Ok {| data := d; current_year := year (now w) |}.

(** [df.index.year == y] *)
Definition in_year (y : Z) (r : Row) : bool := year (index r) =? y.

(** [(index.month < end_month) | ((index.month == end_month) & (index.day <= end_day))] *)
Definition on_or_before (end_month end_day : Z) (r : Row) : bool :=
  (month (index r) <? end_month)
  || ((month (index r) =? end_month) && (day (index r) <=? end_day)).

(** The year-to-date extract both [calculate_ytd_correlation] and
    [_get_ytd_return] build. *)
Definition ytd_data (self : PatternMatcher) (y end_month end_day : Z) : DataFrame :=
  filter (on_or_before end_month end_day) (filter (in_year y) (data self)).

(** [((1 + d['returns'].iloc[:min_len]).cumprod() - 1).values] *)
Definition cum_returns_path (d : DataFrame) (min_len : nat) : list float :=
  map (fun x => F64.sub x F64.one)
      (Series_cumprod
         (map (fun r => F64.add F64.one r) (iloc_to min_len (map returns d)))).


(** [~(np.isnan(a) | np.isnan(b))] *)
Definition valid_mask (a b : list float) : list bool :=
  map (fun p : float * float => negb (F64.isnan (fst p) || F64.isnan (snd p)))
      (combine a b).

(** [((s.iloc[-1] / s.iloc[0]) - 1) * 100] on the [adjusted_close] column. *)
Definition total_return (d : DataFrame) : result float :=
  last <- iloc_last (map adjusted_close d) ;;
  first <- iloc_first (map adjusted_close d) ;;
  Ok (F64.mul (F64.sub (F64.div last first) F64.one) F64.hundred).

Definition quarter_months (quarter : Z) : list Z :=
  match quarter with
  | 1 => [1; 2; 3]
  | 2 => [4; 5; 6]
  | 3 => [7; 8; 9]
  | 4 => [10; 11; 12]
  | _ => []
  end.

(** [index.month.isin(months)] *)
Definition isin (months : list Z) (r : Row) : bool :=
  existsb (Z.eqb (month (index r))) months.

Section Methods.

Context {np : Numpy} {pd : Pandas}.

(** Body of the [try] block of [calculate_ytd_correlation]. *)
Definition calculate_ytd_correlation_try
    (w : World) (self : PatternMatcher) (year1 year2 : Z) : result float :=
  let end_month := month (now w) in
  let end_day := day (now w) in
  let data1 := ytd_data self year1 end_month end_day in
  let data2 := ytd_data self year2 end_month end_day in
  let min_len := Nat.min (length data1) (length data2) in
  if (min_len <? 20)%nat then Ok F64.nan
  else
    let cum_returns1 := cum_returns_path data1 min_len in
    let cum_returns2 := cum_returns_path data2 min_len in
    let mask := valid_mask cum_returns1 cum_returns2 in
    if (mask_sum mask <? 20)%nat then Ok F64.nan
    else
      c <- corrcoef (boolean_index cum_returns1 mask)
                    (boolean_index cum_returns2 mask) ;;
      getitem2 c 0 1.

Definition calculate_ytd_correlation
    (w : World) (self : PatternMatcher) (year1 year2 : Z) : float :=
  try_except (calculate_ytd_correlation_try w self year1 year2) F64.nan.

(** [_get_ytd_return]: the value of the [try] block when it returns one,
    NaN when it falls through or raises. *)
Definition get_ytd_return_try
    (self : PatternMatcher) (y m d : Z) : result float :=
  let year_data := filter (in_year y) (data self) in
  let subset := filter (on_or_before m d) year_data in
  if (1 <? length subset)%nat then total_return subset
  else Ok F64.nan.

Definition _get_ytd_return (self : PatternMatcher) (y m d : Z) : float :=
  try_except (get_ytd_return_try self y m d) F64.nan.

(** One turn of the [for year in years] loop of [find_similar_years]:
    the list [correlations] after the turn. *)
Definition find_similar_years_step
    (w : World) (self : PatternMatcher) (reference_year : Z)
    (min_correlation : float) (y : Z) (correlations : list YearRow.t)
  : result (list YearRow.t) :=
  if y =? reference_year then Ok correlations
  else
    let corr := calculate_ytd_correlation w self reference_year y in
    if negb (F64.isnan corr) && F64.geb corr min_correlation then
      let year_data := filter (in_year y) (data self) in
      rets <-
        (if (0 <? length year_data)%nat then
           year_return <- total_return year_data ;;
           Ok (year_return,
               _get_ytd_return self y (month (now w)) (day (now w)))
         else Ok (F64.nan, F64.nan)) ;;
      Ok (correlations ++
          [ {| YearRow.year := y;
               YearRow.correlation := corr;
               YearRow.year_return := fst rets;
               YearRow.ytd_return_at_similar_point := snd rets |} ])
    else Ok correlations.

Fixpoint find_similar_years_loop
    (w : World) (self : PatternMatcher) (reference_year : Z)
    (min_correlation : float) (years : list Z) (correlations : list YearRow.t)
  : result (list YearRow.t) :=
  match years with
  | [] => Ok correlations
  | y :: years' =>
      correlations' <-
        find_similar_years_step w self reference_year min_correlation
                                y correlations ;;
      find_similar_years_loop w self reference_year min_correlation
                              years' correlations'
  end.

Definition find_similar_years
    (w : World) (self : PatternMatcher) (reference_year : Z)
    (min_correlation : float) : result (list YearRow.t) :=
  let years := sorted (unique (map (fun r => year (index r)) (data self))) in
  correlations <-
    find_similar_years_loop w self reference_year min_correlation years [] ;;
  match correlations with
  | [] => Ok []
  | _ :: _ =>
      Ok (head (TOP_N_SIMILAR w)
               (sort_values_desc YearRow.correlation correlations))
  end.

(** [get_quarter_data] *)
Definition get_quarter_data
    (self : PatternMatcher) (y quarter : Z) : DataFrame :=
  let months := quarter_months quarter in
  filter (isin months) (filter (in_year y) (data self)).

(** Body of the [try] block of [calculate_quarterly_correlation]. *)
Definition calculate_quarterly_correlation_try
    (self : PatternMatcher) (year1 q1 year2 q2 : Z) : result float :=
  let data1 := get_quarter_data self year1 q1 in
  let data2 := get_quarter_data self year2 q2 in
  if (length data1 <? 15)%nat || (length data2 <? 15)%nat then Ok F64.nan
  else
    let min_len := Nat.min (length data1) (length data2) in
    let cum_returns1 := cum_returns_path data1 min_len in
    let cum_returns2 := cum_returns_path data2 min_len in
    let mask := valid_mask cum_returns1 cum_returns2 in
    if (mask_sum mask <? 15)%nat then Ok F64.nan
    else
      c <- corrcoef (boolean_index cum_returns1 mask)
                    (boolean_index cum_returns2 mask) ;;
      getitem2 c 0 1.

Definition calculate_quarterly_correlation
    (self : PatternMatcher) (year1 q1 year2 q2 : Z) : float :=
  try_except (calculate_quarterly_correlation_try self year1 q1 year2 q2)
             F64.nan.

(** [_get_quarter_return] *)
Definition get_quarter_return_try
    (self : PatternMatcher) (y quarter : Z) : result float :=
  let d := get_quarter_data self y quarter in
  if (1 <? length d)%nat then total_return d else Ok F64.nan.

Definition _get_quarter_return
    (self : PatternMatcher) (y quarter : Z) : float :=
  try_except (get_quarter_return_try self y quarter) F64.nan.

(** One turn of the inner loop [for quarter in [1, 2, 3, 4]]. *)
Definition find_similar_quarters_step
    (self : PatternMatcher) (reference_year reference_quarter : Z)
    (min_correlation : float) (y quarter : Z)
    (correlations : list QuarterRow.t) : list QuarterRow.t :=
  if (y =? reference_year) && (quarter =? reference_quarter)
  then correlations
  else
    let corr :=
      calculate_quarterly_correlation self reference_year reference_quarter
                                      y quarter in
    if negb (F64.isnan corr) && F64.geb corr min_correlation then
      let quarter_return := _get_quarter_return self y quarter in
      correlations ++
        [ {| QuarterRow.year := y;
             QuarterRow.quarter := quarter;
             QuarterRow.year_quarter := year_quarter_label y quarter;
             QuarterRow.correlation := corr;
             QuarterRow.quarter_return := quarter_return |} ]
    else correlations.

Definition find_similar_quarters_inner
    (self : PatternMatcher) (reference_year reference_quarter : Z)
    (min_correlation : float) (y : Z) (correlations : list QuarterRow.t)
  : list QuarterRow.t :=
  fold_left
    (fun acc quarter =>
       find_similar_quarters_step self reference_year reference_quarter
                                  min_correlation y quarter acc)
    [1; 2; 3; 4] correlations.

Definition find_similar_quarters_loop
    (self : PatternMatcher) (reference_year reference_quarter : Z)
    (min_correlation : float) (years : list Z)
    (correlations : list QuarterRow.t) : list QuarterRow.t :=
  fold_left
    (fun acc y =>
       find_similar_quarters_inner self reference_year reference_quarter
                                   min_correlation y acc)
    years correlations.

Definition find_similar_quarters
    (w : World) (self : PatternMatcher) (reference_year reference_quarter : Z)
    (min_correlation : float) : result (list QuarterRow.t) :=
  let years := sorted (unique (map (fun r => year (index r)) (data self))) in
  let correlations :=
    find_similar_quarters_loop self reference_year reference_quarter
                               min_correlation years [] in
  match correlations with
  | [] => Ok []
  | _ :: _ =>
      Ok (head (TOP_N_SIMILAR w)
               (sort_values_desc QuarterRow.correlation correlations))
  end.

(** The years and the rows the scans go through, read off the loops: the
    rows one turn appends to an empty list, and their concatenation in
    scan order. *)
Definition scanned_years (self : PatternMatcher) : list Z :=
  sorted (unique (map (fun r => year (index r)) (data self))).

Definition year_candidate
    (w : World) (self : PatternMatcher) (reference_year : Z)
    (min_correlation : float) (y : Z) : list YearRow.t :=
  try_except
    (find_similar_years_step w self reference_year min_correlation y []) [].

Definition kept_years
    (w : World) (self : PatternMatcher) (reference_year : Z)
    (min_correlation : float) (years : list Z) : list YearRow.t :=
  flat_map (year_candidate w self reference_year min_correlation) years.

Definition quarter_candidate
    (self : PatternMatcher) (reference_year reference_quarter : Z)
    (min_correlation : float) (y quarter : Z) : list QuarterRow.t :=
  find_similar_quarters_step self reference_year reference_quarter
                             min_correlation y quarter [].

Definition kept_quarters
    (self : PatternMatcher) (reference_year reference_quarter : Z)
    (min_correlation : float) (years : list Z) : list QuarterRow.t :=
  flat_map
    (fun y =>
       flat_map (quarter_candidate self reference_year reference_quarter
                                   min_correlation y)
                [1; 2; 3; 4])
    years.

(** Lines 502-510 of [main]: build the matcher, then scan. *)
Definition analyse_years
    (w : World) (d : DataFrame) (reference_year : Z)
    (min_correlation : float) : result (list YearRow.t) :=
  matcher <- PatternMatcher_init w d ;;
  find_similar_years w matcher reference_year min_correlation.

Definition analyse_quarters
    (w : World) (d : DataFrame) (reference_year reference_quarter : Z)
    (min_correlation : float) : result (list QuarterRow.t) :=
  matcher <- PatternMatcher_init w d ;;
  find_similar_quarters w matcher reference_year reference_quarter
                        min_correlation.

End Methods.

(* ================================================================== *)
(** ** Instances of the library interfaces *)
(* ================================================================== *)

(** *** numpy *)

(** [np.corrcoef] as numpy computes it ([cov] with [ddof=1], division by the
    two standard deviations, clipping to [-1, 1]), the sums taken from left
    to right. *)
Module NumpyModel.

Definition zero : float := F64.of_Z 0.

Definition np_sum (xs : list float) : float := fold_left F64.add xs zero.

Definition np_mean (xs : list float) : float :=
  F64.div (np_sum xs) (F64.of_Z (Z.of_nat (length xs))).

Definition np_dot (xs ys : list float) : float :=
  np_sum (map (fun p : float * float => F64.mul (fst p) (snd p))
              (combine xs ys)).

Definition np_clip (x lo hi : float) : float :=
  if F64.isnan x then x
  else if F64.ltb x lo then lo
  else if F64.ltb hi x then hi
  else x.

Definition np_cov_entry (fact : float) (xs ys : list float) : float :=
  F64.mul (np_dot xs ys) (F64.div F64.one fact).

Definition np_corrcoef (x y : list float) : result (list (list float)) :=
  if negb (length x =? length y)%nat
  then Raise (ValueError "all the input array dimensions must match")
  else
    let n := Z.of_nat (length x) in
    let fact := if n - 1 <=? 0 then zero else F64.of_Z (n - 1) in
    let x0 := map (fun v => F64.sub v (np_mean x)) x in
    let x1 := map (fun v => F64.sub v (np_mean y)) y in
    let c00 := np_cov_entry fact x0 x0 in
    let c01 := np_cov_entry fact x0 x1 in
    let c10 := np_cov_entry fact x1 x0 in
    let c11 := np_cov_entry fact x1 x1 in
    let s0 := F64.sqrt c00 in
    let s1 := F64.sqrt c11 in
    let norm c si sj :=
      np_clip (F64.div (F64.div c si) sj) (F64.of_Z (-1)) F64.one in
    Ok [ [norm c00 s0 s0; norm c01 s0 s1];
         [norm c10 s1 s0; norm c11 s1 s1] ].

End NumpyModel.

#[export] Instance numpy_model : Numpy :=
  {| corrcoef := NumpyModel.np_corrcoef |}.


(** *** pandas *)

(** Descending insertion sort.  A row goes behind the rows in front of which
    [behind] says so: with [F64.ltb], behind the strictly larger keys only, so
    that sorting from the right end keeps equal keys in their original order
    (what pandas gets from a stable [argsort]); with [F64.leb], behind the
    equal keys too, which turns every run of equal keys around. *)
Section InsertionSort.

Context {A : Type} (behind : float -> float -> bool) (key : A -> float).

Fixpoint insert_desc (x : A) (l : list A) : list A :=
  match l with
  | [] => [x]
  | y :: l' =>
      if behind (key x) (key y) then y :: insert_desc x l'
      else x :: l
  end.

Definition sort_desc (l : list A) : list A := fold_right insert_desc [] l.

End InsertionSort.

Definition sort_desc_stable {A : Type} (key : A -> float) : list A -> list A :=
  sort_desc F64.ltb key.


(* ================================================================== *)
(** ** The frame [fetch_data] returns *)
(* ================================================================== *)

(** [s.pct_change()]: [s / s.shift(1) - 1]. *)
Definition pct_change (s : list float) : list float :=
  match s with
  | [] => []
  | _ :: s' =>
      F64.nan ::
      map (fun p : float * float => F64.sub (F64.div (snd p) (fst p)) F64.one)
          (combine s s')
  end.

Definition row_has_nan (r : Row) : bool :=
  F64.isnan (adjusted_close r) || F64.isnan (returns r)
  || F64.isnan (cum_returns r).

(** Lines 161-163 (and 182-184) of [fetch_data]:
    [returns = adjusted_close.pct_change()],
    [cum_returns = (1 + returns).cumprod() - 1], then [dropna()]. *)
Definition derive_frame (raw : list (Timestamp * float)) : DataFrame :=
  let close := map snd raw in
  let rets := pct_change close in
  let cum :=
    map (fun x => F64.sub x F64.one)
        (Series_cumprod (map (fun r => F64.add F64.one r) rets)) in
  filter (fun r => negb (row_has_nan r))
         (map (fun q : (Timestamp * float) * (float * float) =>
                 {| index := fst (fst q);
                    adjusted_close := snd (fst q);
                    returns := fst (snd q);
                    cum_returns := snd (snd q) |})
              (combine raw (combine rets cum))).

(* ================================================================== *)
(** ** A small series to run the model on *)
(* ================================================================== *)

Module Sample.

(** Closing prices of 22 consecutive sessions, 4 to 25 January. *)
Definition wave : list Z :=
  [101; 103; 102; 105; 107; 106; 109; 112; 110; 113; 115;
   114; 111; 108; 110; 107; 105; 106; 103; 102; 101; 100].

Definition drift : list Z :=
  [102; 103; 103; 106; 108; 106; 110; 113; 111; 112; 116;
   115; 111; 109; 110; 108; 104; 106; 104; 102; 100; 100].

Definition slide : list Z :=
  [99; 97; 98; 95; 93; 94; 91; 88; 90; 87; 85;
   86; 89; 92; 90; 93; 95; 94; 97; 98; 99; 100].

Definition january (y : Z) (closes : list Z) : list (Timestamp * float) :=
  map (fun p : Z * Z =>
         ({| year := y; month := 1; day := fst p |}, F64.of_Z (snd p)))
      (combine (map Z.of_nat (seq 4 (length closes))) closes).

(** 2009 contributes the one row that [dropna] removes; 2010 and 2011
    repeat the same prices; 2012 follows them loosely; 2013 moves the
    other way; 2014 has ten sessions only. *)
Definition raw : list (Timestamp * float) :=
  ({| year := 2009; month := 12; day := 31 |}, F64.of_Z 100)
    :: january 2010 wave ++ january 2011 wave ++ january 2012 drift
    ++ january 2013 slide ++ january 2014 (firstn 10 wave).

Definition frame : DataFrame := derive_frame raw.

Definition matcher : PatternMatcher :=
  {| data := frame; current_year := 2012 |}.


(** A flat price of 100 through one January and of 200 through the next. *)
Definition flat_matcher : PatternMatcher :=
  {| data :=
       derive_frame
         (({| year := 2014; month := 12; day := 31 |}, F64.of_Z 100)
            :: january 2015 (repeat 100 22) ++ january 2016 (repeat 200 22));
     current_year := 2016 |}.

(** The default threshold [Config.MIN_CORRELATION = 0.70]. *)
Definition min_correlation : float := F64.of_ratio 70 100.

(** The host on 31 January and on 10 January, [TOP_N_SIMILAR = 5]. *)
Definition end_of_january : World :=
  {| now := {| year := 2012; month := 1; day := 31 |}; TOP_N_SIMILAR := 5 |}.

Definition tenth_of_january : World :=
  {| now := {| year := 2012; month := 1; day := 10 |}; TOP_N_SIMILAR := 5 |}.

End Sample.

(* ================================================================== *)
(** ** Presentation: [Config], the comparison charts, the table cells *)
(* ================================================================== *)

(** The style attributes of [Config]; nothing assigns to them. *)
Module Config.
Definition CHART_TEMPLATE : string := "plotly_dark".
Definition COLOR_CURRENT : string := "#00ff00".
Definition COLOR_SIMILAR : list string :=
  ["#ff9500"; "#ff6b6b"; "#4ecdc4"; "#45b7d1"; "#96ceb4"]%string.
End Config.

(** Python's number formatting and [str.upper], which the charts and the
    tables use for their texts: [f"{x:.2f}"] and [s.upper()]. *)
Class Formatting : Type :=
  { format_2f : float -> string;
    upper : string -> string }.

(** The part of plotly's [graph_objects] the charts build. *)
Module go.

(** [go.Scatter(x=..., y=..., mode='lines', name=..., line=dict(color=...,
    width=..., dash=...), opacity=...)]; traces of the current period have
    neither [dash] nor [opacity]. *)
Record Scatter : Type := mkScatter
  { x : list Z;
    y : list float;
    name : string;
    line_color : string;
    line_width : Z;
    line_dash : option string;
    opacity : option float }.

(** [go.Figure] after [update_layout]. *)
Record Figure : Type := mkFigure
  { traces : list Scatter;
    title : string;
    xaxis_title : string;
    yaxis_title : string;
    template : string;
    height : Z;
    hovermode : string }.

End go.

(** The index of a frame after [reset_index()]: [0, 1, ..., n-1]. *)
Definition range_index {A : Type} (d : list A) : list Z :=
  map Z.of_nat (seq 0 (length d)).

(** [((d['adjusted_close'] / d['adjusted_close'].iloc[0]) - 1) * 100]:
    IndexError on an empty frame. *)
Definition pct_from_first (d : DataFrame) : result (list float) :=
  first <- iloc_first (map adjusted_close d) ;;
  Ok (map (fun p => F64.mul (F64.sub (F64.div p first) F64.one) F64.hundred)
          (map adjusted_close d)).

(** [Config.COLOR_SIMILAR[idx % len(Config.COLOR_SIMILAR)]]; Python's [%]
    takes the sign of the divisor, as [Z.modulo] does. *)
Definition similar_color (idx : Z) : result string :=
  match nth_error Config.COLOR_SIMILAR
                  (Z.to_nat (idx mod Z.of_nat (length Config.COLOR_SIMILAR)))
  with
  | Some c => Ok c
  | None => Raise IndexError
  end.

(** The trace of the current period and the trace of a similar one. *)
Definition current_trace (d : DataFrame) (ys : list float) (label : string)
  : go.Scatter :=
  {| go.x := range_index d; go.y := ys; go.name := label;
     go.line_color := Config.COLOR_CURRENT; go.line_width := 4;
     go.line_dash := None; go.opacity := None |}.

Definition similar_trace
    (d : DataFrame) (ys : list float) (label color : string) : go.Scatter :=
  {| go.x := range_index d; go.y := ys; go.name := label;
     go.line_color := color; go.line_width := 2;
     go.line_dash := Some "dash"%string;
     go.opacity := Some (F64.of_ratio 8 10) |}.

(** A curve drawn against the count of trading days: [x] is
    [0, 1, ..., n-1] for the [n] values of [y]. *)
Definition indexed_by_position (t : go.Scatter) : Prop :=
  go.x t = map Z.of_nat (seq 0 (length (go.y t))).

(** The first value of the curve is exactly [+0.0]. *)
Definition starts_at_zero (t : go.Scatter) : Prop :=
  hd_error (go.y t) = Some (S754_zero false).

(** The trace draws a non-empty selection [dd] of the rows of [d]. *)
Definition drawn_from (d : DataFrame) (t : go.Scatter) : Prop :=
  exists dd, dd <> [] /\ incl dd d
             /\ pct_from_first dd = Ok (go.y t) /\ go.x t = range_index dd.

Section Charts.

Context {fmt : Formatting}.

(** [f"{label} (r={corr:.2f})"] *)
Definition similar_name (label : string) (corr : float) : string :=
  (label ++ " (r=" ++ format_2f corr ++ ")")%string.

(** One turn of [for idx, row in similar_years.iterrows()]: the traces of
    the figure after the turn. *)
Definition yearly_chart_step
    (d : DataFrame) (fig : list go.Scatter) (labelled : Z * YearRow.t)
  : result (list go.Scatter) :=
  let idx := fst labelled in
  let row := snd labelled in
  let y := YearRow.year row in
  let year_data := filter (in_year y) d in
  ys <- pct_from_first year_data ;;
  color <- similar_color idx ;;
  Ok (fig ++ [similar_trace year_data ys
                (similar_name (str_of_int y) (YearRow.correlation row))
                color]).

Fixpoint yearly_chart_loop
    (d : DataFrame) (similar_years : list (Z * YearRow.t))
    (fig : list go.Scatter) : result (list go.Scatter) :=
  match similar_years with
  | [] => Ok fig
  | labelled :: rest =>
      fig' <- yearly_chart_step d fig labelled ;;
      yearly_chart_loop d rest fig'
  end.

(** [create_yearly_comparison_chart]; [similar_years] comes with the index
    labels [iterrows] yields. *)
Definition create_yearly_comparison_chart
    (w : World) (d : DataFrame) (ticker : string)
    (similar_years : list (Z * YearRow.t)) : result go.Figure :=
  let current_year := year (now w) in
  let current_data := filter (in_year current_year) d in
  ys <- pct_from_first current_data ;;
  let fig :=
    [current_trace current_data ys
       ("<b>" ++ str_of_int current_year ++ " (Corrente)</b>")%string] in
  fig' <- yearly_chart_loop d similar_years fig ;;
  Ok {| go.traces := fig';
        go.title := ("<b>" ++ upper ticker
                  ++ " - Confronto Annuale</b><br>Andamento YTD vs Anni Storici Simili")%string;
        go.xaxis_title := "Giorni di Trading dall'Inizio dell'Anno";
        go.yaxis_title := "Rendimento Cumulativo (%)";
        go.template := Config.CHART_TEMPLATE;
        go.height := 600;
        go.hovermode := "x unified" |}.

(** One turn of [for idx, row in similar_quarters.iterrows()]. *)
Definition quarterly_chart_step
    (matcher : PatternMatcher) (fig : list go.Scatter)
    (labelled : Z * QuarterRow.t) : result (list go.Scatter) :=
  let idx := fst labelled in
  let row := snd labelled in
  let quarter_data :=
    get_quarter_data matcher (QuarterRow.year row) (QuarterRow.quarter row) in
  if negb (empty quarter_data) then
    ys <- pct_from_first quarter_data ;;
    color <- similar_color idx ;;
    Ok (fig ++ [similar_trace quarter_data ys
                  (similar_name (QuarterRow.year_quarter row)
                                (QuarterRow.correlation row))
                  color])
  else Ok fig.

Fixpoint quarterly_chart_loop
    (matcher : PatternMatcher) (similar_quarters : list (Z * QuarterRow.t))
    (fig : list go.Scatter) : result (list go.Scatter) :=
  match similar_quarters with
  | [] => Ok fig
  | labelled :: rest =>
      fig' <- quarterly_chart_step matcher fig labelled ;;
      quarterly_chart_loop matcher rest fig'
  end.

(** [create_quarterly_comparison_chart]; its [data] argument is not read. *)
Definition create_quarterly_comparison_chart
    (w : World) (d : DataFrame) (ticker : string)
    (similar_quarters : list (Z * QuarterRow.t)) (matcher : PatternMatcher)
  : result go.Figure :=
  let current_year := year (now w) in
  let current_quarter := (month (now w) - 1) / 3 + 1 in
  let current_data := get_quarter_data matcher current_year current_quarter in
  fig <-
    (if negb (empty current_data) then
       ys <- pct_from_first current_data ;;
       Ok [current_trace current_data ys
             ("<b>" ++ str_of_int current_year ++ "-Q"
              ++ str_of_int current_quarter ++ " (Corrente)</b>")%string]
     else Ok []) ;;
  fig' <- quarterly_chart_loop matcher similar_quarters fig ;;
  Ok {| go.traces := fig';
        go.title := ("<b>" ++ upper ticker
                  ++ " - Confronto Trimestrale</b><br>Andamento QTD vs Trimestri Storici Simili")%string;
        go.xaxis_title := "Giorni di Trading dall'Inizio del Trimestre";
        go.yaxis_title := "Rendimento Cumulativo Trimestrale (%)";
        go.template := Config.CHART_TEMPLATE;
        go.height := 600;
        go.hovermode := "x unified" |}.


End Charts.

(** *** Python's own formatting, for ASCII texts *)

Module PythonFormat.

(** [round(q)] to the nearest integer, ties to even, of [num / den]. *)
Definition round_half_even (num den : Z) : Z :=
  let q := num / den in
  let r := num mod den in
  match (2 * r ?= den) with
  | Lt => q
  | Gt => q + 1
  | Eq => if Z.even q then q else q + 1
  end.

Definition two_digits (n : Z) : string :=
  if n <? 10 then String.append "0" (str_of_int n) else str_of_int n.

Definition sign (s : bool) : string := if s then "-"%string else ""%string.

(** [f"{x:.2f}"]: the exact binary value, correctly rounded to two
    decimals. *)
Definition hundredths (m : positive) (e : Z) : Z :=
  if 0 <=? e then Z.pos m * 100 * 2 ^ e
  else round_half_even (Z.pos m * 100) (2 ^ (- e)).

Definition format_2f (v : float) : string :=
  match v with
  | S754_nan => "nan"
  | S754_infinity s => sign s ++ "inf"
  | S754_zero s => sign s ++ "0.00"
  | S754_finite s m e =>
      sign s ++ str_of_int (Z.div (hundredths m e) 100) ++ "."
      ++ two_digits (Z.modulo (hundredths m e) 100)
  end%string.

Definition upper_ascii (c : Ascii.ascii) : Ascii.ascii :=
  let n := Ascii.nat_of_ascii c in
  if ((97 <=? n) && (n <=? 122))%nat then Ascii.ascii_of_nat (n - 32) else c.

Fixpoint upper (s : string) : string :=
  match s with
  | EmptyString => EmptyString
  | String c s' => String (upper_ascii c) (upper s')
  end.

End PythonFormat.

#[export] Instance python_formatting : Formatting :=
  {| format_2f := PythonFormat.format_2f; upper := PythonFormat.upper |}.

(** The yearly chart of the sample series on 31 January 2012 with no
    similar year listed: the figure, or an empty one had the call raised. *)
Definition sample_current_year_figure : go.Figure :=
  try_except
    (create_yearly_comparison_chart Sample.end_of_january Sample.frame "spy" [])
    {| go.traces := []; go.title := ""; go.xaxis_title := "";
       go.yaxis_title := ""; go.template := ""; go.height := 0;
       go.hovermode := "" |}.

(* ================================================================== *)
(** ** The quarter [main] and the quarterly chart derive from the clock *)
(* ================================================================== *)

(** [(datetime.now().month - 1) // 3 + 1] *)
Definition current_quarter (w : World) : Z := (month (now w) - 1) / 3 + 1.

(** Months as a calendar has them. *)
Definition calendar_months (d : DataFrame) : Prop :=
  Forall (fun r => 1 <= month (index r) <= 12) d.

(* ================================================================== *)
(** ** Vocabulary of the statements *)
(* ================================================================== *)

(** Non-increasing in the given column, row by row. *)
Definition non_increasing {A : Type} (key : A -> float) : list A -> Prop :=
  Sorted (fun a b => F64.geb (key a) (key b) = true).

(** Non-increasing between any two positions. *)
Definition non_increasing_pairwise {A : Type} (key : A -> float)
  : list A -> Prop :=
  StronglySorted (fun a b => F64.geb (key a) (key b) = true).


(** Scan order of the quarter rows: by year, then by quarter. *)
Definition quarter_before (a b : QuarterRow.t) : Prop :=
  QuarterRow.year a < QuarterRow.year b
  \/ (QuarterRow.year a = QuarterRow.year b
      /\ QuarterRow.quarter a < QuarterRow.quarter b).

(** The entry [np.corrcoef(a, b)[0, 1]] as the primitives see it: NaN when
    the call or the indexing raises. *)
Definition corrcoef01 {np : Numpy} (a b : list float) : float :=
  try_except (c <- corrcoef a b ;; getitem2 c 0 1) F64.nan.

(* ================================================================== *)
(** ** Facts about binary64 *)
(* ================================================================== *)

Module F64Facts.

Import F64.

(** *** Rounding never produces NaN from a non-negative mantissa *)

Lemma shr_1_nonneg (mrs : shr_record) :
  0 <= shr_m mrs -> 0 <= shr_m (shr_1 mrs).
Proof.
  destruct mrs as [m r s]; simpl.
  destruct m as [|p|p]; [ | destruct p | ]; simpl; lia.
Qed.

Lemma iter_pos_shr_1_nonneg (p : positive) :
  forall mrs, 0 <= shr_m mrs -> 0 <= shr_m (iter_pos shr_1 p mrs).
Proof.
  induction p as [p IH|p IH|]; intros mrs H; simpl.
  - apply IH, IH, shr_1_nonneg, H.
  - apply IH, IH, H.
  - apply shr_1_nonneg, H.
Qed.

Lemma shr_nonneg (mrs : shr_record) (e n : Z) :
  0 <= shr_m mrs -> 0 <= shr_m (fst (shr mrs e n)).
Proof.
  intros H; destruct n; simpl; auto using iter_pos_shr_1_nonneg.
Qed.

Lemma shr_record_of_loc_m (m : Z) (l : location) :
  shr_m (shr_record_of_loc m l) = m.
Proof. destruct l as [|[]]; reflexivity. Qed.

Lemma shr_fexp_nonneg (p x m e : Z) (l : location) :
  0 <= m -> 0 <= shr_m (fst (shr_fexp p x m e l)).
Proof.
  intros H; unfold shr_fexp.
  apply shr_nonneg; rewrite shr_record_of_loc_m; exact H.
Qed.

Lemma round_nearest_even_nonneg (m : Z) (l : location) :
  0 <= m -> 0 <= round_nearest_even m l.
Proof.
  intros H; destruct l as [|[]]; simpl; try lia.
  destruct (Z.even m); lia.
Qed.

Lemma binary_round_aux_not_nan (p x : Z) (s : bool) (m e : Z) (l : location) :
  0 <= m -> isnan (binary_round_aux p x s m e l) = false.
Proof.
  intros H; unfold binary_round_aux.
  pose proof (shr_fexp_nonneg p x m e l H) as H1.
  destruct (shr_fexp p x m e l) as [mrs' e']; simpl in H1.
  pose proof (shr_fexp_nonneg p x
                (round_nearest_even (shr_m mrs') (loc_of_shr_record mrs'))
                e' loc_Exact
                (round_nearest_even_nonneg _ _ H1)) as H2.
  destruct (shr_fexp p x (round_nearest_even _ _) e' loc_Exact)
    as [mrs'' e'']; simpl in H2.
  destruct (shr_m mrs'') as [|q|q]; try reflexivity.
  - destruct (e'' <=? x - p); reflexivity.
  - lia.
Qed.

Lemma binary_normalize_not_nan (p x m e : Z) (sz : bool) :
  isnan (binary_normalize p x m e sz) = false.
Proof.
  destruct m as [|q|q]; simpl; try reflexivity;
    unfold binary_round;
    destruct (shl_align q e _) as [mz ez];
    apply binary_round_aux_not_nan; lia.
Qed.

(** *** Which operations can produce NaN *)

Lemma one_eq : one = S754_finite false 4503599627370496 (-52).
Proof. reflexivity. Qed.

Lemma hundred_eq : hundred = S754_finite false 7036874417766400 (-46).
Proof. reflexivity. Qed.

Lemma div_positive_not_nan (x y : float) :
  positive_finite x -> positive_finite y -> isnan (div x y) = false.
Proof.
  destruct x as [| | |[] mx ex]; simpl; try contradiction; intros _.
  destruct y as [| | |[] my ey]; simpl; try contradiction; intros _.
  unfold div, SFdiv, SFdiv_core_binary.
  set (s := ex - ey - _).
  set (m' := match s with Z0 => Zpos mx | Zpos _ => Z.shiftl (Zpos mx) s
                     | Zneg _ => 0 end).
  assert (Hm' : 0 <= m').
  { subst m'; destruct s; try lia. apply Z.shiftl_nonneg; lia. }
  pose proof (Z.div_pos m' (Zpos my) Hm' ltac:(lia)) as Hq.
  unfold Z.div in Hq.
  destruct (Z.div_eucl m' (Zpos my)) as [q r]; simpl in Hq.
  apply binary_round_aux_not_nan; exact Hq.
Qed.

Lemma sub_finite_not_nan (x : float) (s : bool) (m : positive) (e : Z) :
  isnan x = false -> isnan (sub x (S754_finite s m e)) = false.
Proof.
  destruct x as [sx|sx| |sx mx ex]; simpl; intros H;
    try reflexivity; try discriminate.
  apply binary_normalize_not_nan.
Qed.

Lemma mul_finite_not_nan (x : float) (s : bool) (m : positive) (e : Z) :
  isnan x = false -> isnan (mul x (S754_finite s m e)) = false.
Proof.
  destruct x as [sx|sx| |sx mx ex]; simpl; intros H;
    try reflexivity; try discriminate.
  apply binary_round_aux_not_nan; lia.
Qed.

(** *** The order on floats that are not NaN *)

Lemma compare_swap (x y : float) :
  SFcompare y x = option_map CompOpp (SFcompare x y).
Proof.
  destruct x as [sx|sx| |sx mx ex], y as [sy|sy| |sy my ey]; simpl;
    try reflexivity;
    try (destruct sx; reflexivity); try (destruct sy; reflexivity);
    try (destruct sx, sy; reflexivity).
  change (Pos.compare_cont Eq my mx) with (Pos.compare my mx).
  change (Pos.compare_cont Eq mx my) with (Pos.compare mx my).
  rewrite (Z.compare_antisym ex ey), (Pos.compare_antisym mx my).
  destruct sx, sy; simpl; try reflexivity;
    destruct (ex ?= ey); simpl; reflexivity.
Qed.

Lemma compare_defined (x y : float) :
  isnan x = false -> isnan y = false -> exists c, SFcompare x y = Some c.
Proof.
  destruct x, y; simpl; intros; try discriminate; eauto.
Qed.

Lemma leb_not_nan (x y : float) :
  leb x y = true -> isnan x = false /\ isnan y = false.
Proof.
  destruct x, y; simpl; intros H; try discriminate H; split; reflexivity.
Qed.

Lemma ltb_leb (x y : float) : ltb x y = true -> leb x y = true.
Proof.
  unfold ltb, leb, SFltb, SFleb.
  destruct (SFcompare x y) as [[]|]; intros H; try discriminate H; reflexivity.
Qed.

Lemma ltb_false_leb (x y : float) :
  isnan x = false -> isnan y = false -> ltb x y = false -> leb y x = true.
Proof.
  intros Hx Hy; unfold ltb, leb, SFltb, SFleb.
  rewrite (compare_swap x y).
  destruct (compare_defined x y Hx Hy) as [c ->]; simpl.
  destruct c; intros H; try discriminate H; reflexivity.
Qed.


Lemma leb_refl (x : float) : isnan x = false -> leb x x = true.
Proof.
  unfold leb, SFleb.
  destruct x as [s|s| |s m e]; simpl; intros H; try discriminate H;
    try reflexivity; try (destruct s; reflexivity).
  change (Pos.compare_cont Eq m m) with (Pos.compare m m).
  rewrite Z.compare_refl, Pos.compare_refl; destruct s; reflexivity.
Qed.

Ltac split_compare :=
  repeat match goal with
    | H : context [Pos.compare_cont Eq ?a ?b] |- _ =>
        change (Pos.compare_cont Eq a b) with (Pos.compare a b) in H
    | |- context [Pos.compare_cont Eq ?a ?b] =>
        change (Pos.compare_cont Eq a b) with (Pos.compare a b)
    end;
  repeat match goal with
    | H : context [Z.compare ?a ?b] |- _ =>
        destruct (Z.compare_spec a b); try discriminate H
    | H : context [Pos.compare ?a ?b] |- _ =>
        destruct (Pos.compare_spec a b); try discriminate H
    | |- context [Z.compare ?a ?b] =>
        destruct (Z.compare_spec a b)
    | |- context [Pos.compare ?a ?b] =>
        destruct (Pos.compare_spec a b)
    end.

Lemma leb_trans (x y z : float) :
  leb x y = true -> leb y z = true -> leb x z = true.
Proof.
  unfold leb, SFleb.
  destruct x as [sx|sx| |sx mx ex], y as [sy|sy| |sy my ey],
           z as [sz|sz| |sz mz ez]; simpl;
    intros Hxy Hyz; try discriminate; try reflexivity;
    repeat match goal with s : bool |- _ => destruct s end;
    simpl in *; try discriminate; try reflexivity;
    split_compare; subst; simpl; try reflexivity; try lia.
Qed.


End F64Facts.

(* ================================================================== *)
(** ** Facts about lists and the insertion sorts *)
(* ================================================================== *)

Section SortFacts.

Context {A : Type} (behind : float -> float -> bool) (key : A -> float).

Hypothesis behind_leb :
  forall x y, behind x y = true -> F64.leb x y = true.
Hypothesis not_behind_leb :
  forall x y, F64.isnan x = false -> F64.isnan y = false ->
              behind x y = false -> F64.leb y x = true.

Lemma insert_desc_perm (x : A) (l : list A) :
  Permutation (insert_desc behind key x l) (x :: l).
Proof.
  induction l as [|y l IH]; simpl.
  - apply Permutation_refl.
  - destruct (behind (key x) (key y)).
    + apply perm_trans with (y :: x :: l).
      * apply perm_skip, IH.
      * apply perm_swap.
    + apply Permutation_refl.
Qed.

Lemma sort_desc_perm (l : list A) :
  Permutation (sort_desc behind key l) l.
Proof.
  induction l as [|x l IH]; simpl.
  - apply perm_nil.
  - apply perm_trans with (x :: sort_desc behind key l).
    + apply insert_desc_perm.
    + apply perm_skip, IH.
Qed.

Lemma insert_desc_hd (x y : A) (l : list A) :
  F64.geb (key y) (key x) = true ->
  HdRel (fun a b => F64.geb (key a) (key b) = true) y l ->
  HdRel (fun a b => F64.geb (key a) (key b) = true) y
        (insert_desc behind key x l).
Proof.
  intros Hyx Hl; destruct l as [|z l]; simpl.
  - constructor; exact Hyx.
  - destruct (behind (key x) (key z)).
    + constructor. inversion Hl; assumption.
    + constructor; exact Hyx.
Qed.

Lemma insert_desc_sorted (x : A) (l : list A) :
  F64.isnan (key x) = false ->
  Forall (fun r => F64.isnan (key r) = false) l ->
  non_increasing key l ->
  non_increasing key (insert_desc behind key x l).
Proof.
  intros Hx Hl Hs; induction l as [|y l IH]; simpl.
  - repeat constructor.
  - inversion Hl as [|? ? Hy Hl']; subst.
    inversion Hs as [|? ? Hs' Hhd]; subst.
    destruct (behind (key x) (key y)) eqn:E.
    + constructor.
      * apply IH; assumption.
      * apply insert_desc_hd; [apply behind_leb, E | exact Hhd].
    + constructor; [exact Hs|].
      constructor. apply not_behind_leb; assumption.
Qed.

Lemma sort_desc_sorted (l : list A) :
  Forall (fun r => F64.isnan (key r) = false) l ->
  non_increasing key (sort_desc behind key l).
Proof.
  induction l as [|x l IH]; simpl; intros H.
  - constructor.
  - inversion H as [|? ? Hx Hl]; subst.
    apply insert_desc_sorted; auto.
    apply (Permutation_Forall (x := l)); [|exact Hl].
    apply Permutation_sym, sort_desc_perm.
Qed.

End SortFacts.

(** [sort_values] resting on a stable [argsort]. *)
#[export] Instance pandas_stable : Pandas :=
  {| sort_values_desc := fun A key => sort_desc_stable key;
     sort_values_desc_perm := fun A key => sort_desc_perm F64.ltb key;
     sort_values_desc_sorted := fun A key =>
       sort_desc_sorted F64.ltb key F64Facts.ltb_leb F64Facts.ltb_false_leb |}.


(** The rows of the sample's year scan on 31 January 2012. *)
Definition sample_year_rows : list YearRow.t :=
  Eval vm_compute in
    try_except
      (@find_similar_years numpy_model pandas_stable
         Sample.end_of_january Sample.matcher
         (year (now Sample.end_of_january)) Sample.min_correlation)
      [].

(* ================================================================== *)
(** ** The model at work *)
(* ================================================================== *)

Example head_drops_from_the_end : head (-1) [1; 2; 3] = [1; 2].
Proof. reflexivity. Qed.

Example cumprod_skips_missing_entries :
  Series_cumprod [F64.of_Z 2; F64.nan; F64.of_Z 3]
  = [F64.of_Z 2; F64.nan; F64.of_Z 6].
Proof. vm_compute; reflexivity. Qed.

Example sample_years : scanned_years Sample.matcher = [2010; 2011; 2012; 2013; 2014].
Proof. vm_compute; reflexivity. Qed.

(** Against 2012, the years 2010 and 2011 reach 0.988, 2013 reaches -0.988
    and 2014 is too short. *)
Example sample_correlations :
  map (calculate_ytd_correlation Sample.end_of_january Sample.matcher 2012)
      [2010; 2011; 2013; 2014]
  = [ S754_finite false 8899858051681258 (-53);
      S754_finite false 8899858051681258 (-53);
      S754_finite true 8899858051681260 (-53);
      F64.nan ].
Proof. vm_compute; reflexivity. Qed.

Example sample_year_scan :
  returns_with
    (fun rows => map YearRow.year rows = [2010; 2011])
    (find_similar_years Sample.end_of_january Sample.matcher 2012
                        Sample.min_correlation).
Proof. vm_compute; reflexivity. Qed.

Example sample_quarter_scan :
  returns_with
    (fun rows => map QuarterRow.year_quarter rows
                 = ["2010-Q1"%string; "2011-Q1"%string])
    (find_similar_quarters Sample.end_of_january Sample.matcher 2012 1
                           Sample.min_correlation).
Proof. vm_compute; reflexivity. Qed.

(** With [TOP_N_SIMILAR = 1] one row is left. *)
Example sample_year_scan_top_1 :
  returns_with
    (fun rows => map YearRow.year rows = [2010])
    (find_similar_years
       {| now := {| year := 2012; month := 1; day := 31 |};
          TOP_N_SIMILAR := 1 |}
       Sample.matcher 2012 Sample.min_correlation).
Proof. vm_compute; reflexivity. Qed.

(** Two flat years: both paths have zero variance, the coefficient is NaN
    and nothing is returned, even at a threshold of 0. *)
Example flat_years_are_undefined :
  calculate_ytd_correlation Sample.end_of_january Sample.flat_matcher
                            2016 2015 = F64.nan
  /\ find_similar_years Sample.end_of_january Sample.flat_matcher 2016
                        (F64.of_Z 0) = Ok [].
Proof. split; vm_compute; reflexivity. Qed.

(* ================================================================== *)
(** ** Facts about the frame operations *)
(* ================================================================== *)

Lemma head_prefix {A : Type} (n : Z) (l : list A) :
  exists rest, l = head n l ++ rest.
Proof.
  unfold head; destruct (0 <=? n);
    eexists; symmetry; apply firstn_skipn.
Qed.

Lemma head_incl {A : Type} (n : Z) (l : list A) (x : A) :
  In x (head n l) -> In x l.
Proof.
  destruct (head_prefix n l) as [rest E]; intros H.
  rewrite E; apply in_or_app; left; exact H.
Qed.

Lemma head_nil {A : Type} (n : Z) : head n (@nil A) = [].
Proof. unfold head; destruct (0 <=? n); apply firstn_nil. Qed.

Lemma Sorted_prefix {A : Type} (R : A -> A -> Prop) (l1 l2 : list A) :
  Sorted R (l1 ++ l2) -> Sorted R l1.
Proof.
  induction l1 as [|x l1 IH]; simpl; intros H.
  - constructor.
  - inversion H as [|? ? Hs Hh]; subst. constructor.
    + apply IH, Hs.
    + destruct l1; simpl in *; constructor. inversion Hh; assumption.
Qed.

Lemma head_sorted {A : Type} (R : A -> A -> Prop) (n : Z) (l : list A) :
  Sorted R l -> Sorted R (head n l).
Proof.
  destruct (head_prefix n l) as [rest E]; intros H.
  rewrite E in H; exact (Sorted_prefix R _ _ H).
Qed.

Lemma geb_transitive {A : Type} (key : A -> float) :
  Relations_1.Transitive (fun a b => F64.geb (key a) (key b) = true).
Proof.
  intros a b c Hab Hbc; unfold F64.geb in *.
  exact (F64Facts.leb_trans _ _ _ Hbc Hab).
Qed.

Lemma non_increasing_pairwise_of {A : Type} (key : A -> float) (l : list A) :
  non_increasing key l -> non_increasing_pairwise key l.
Proof. apply Sorted_StronglySorted, geb_transitive. Qed.

Lemma iloc_first_in {A : Type} (s : list A) :
  s <> [] -> exists x, iloc_first s = Ok x /\ In x s.
Proof.
  destruct s as [|x s]; [congruence|]; intros _.
  exists x; simpl; auto.
Qed.

Lemma iloc_last_in {A : Type} (s : list A) :
  s <> [] -> exists x, iloc_last s = Ok x /\ In x s.
Proof.
  induction s as [|x s IH]; [congruence|]; intros _.
  destruct s as [|y s].
  - exists x; simpl; auto.
  - destruct IH as [z [E I]]; [discriminate|].
    exists z; split; [exact E | right; exact I].
Qed.

Lemma nonempty_of_length {A : Type} (l : list A) :
  (0 < length l)%nat -> l <> [].
Proof. destruct l; simpl; [lia | discriminate]. Qed.

(** [total_return] returns on a non-empty frame, and its value is built from
    two prices of the frame. *)
Lemma total_return_ok (d : DataFrame) :
  d <> [] ->
  exists last first,
    In last (map adjusted_close d) /\ In first (map adjusted_close d) /\
    total_return d =
      Ok (F64.mul (F64.sub (F64.div last first) F64.one) F64.hundred).
Proof.
  intros H.
  assert (Hm : map adjusted_close d <> []) by (destruct d; [congruence | discriminate]).
  destruct (iloc_last_in _ Hm) as [l [El Il]].
  destruct (iloc_first_in _ Hm) as [f [Ef If]].
  exists l, f; unfold total_return; rewrite El, Ef; simpl; auto.
Qed.

Lemma total_return_not_nan (d : DataFrame) :
  d <> [] ->
  Forall (fun r => F64.positive_finite (adjusted_close r)) d ->
  returns_with (fun v => F64.isnan v = false) (total_return d).
Proof.
  intros Hne Hpos.
  destruct (total_return_ok d Hne) as [l [f [Il [If E]]]].
  rewrite E; simpl.
  rewrite Forall_forall in Hpos.
  apply in_map_iff in Il; destruct Il as [rl [<- Il]].
  apply in_map_iff in If; destruct If as [rf [<- If]].
  rewrite F64Facts.hundred_eq, F64Facts.one_eq.
  apply F64Facts.mul_finite_not_nan, F64Facts.sub_finite_not_nan.
  apply F64Facts.div_positive_not_nan; auto.
Qed.

Lemma filter_length_le {A : Type} (f : A -> bool) (l : list A) :
  (length (filter f l) <= length l)%nat.
Proof.
  induction l as [|x l IH]; simpl; [lia|].
  destruct (f x); simpl; lia.
Qed.

Lemma Forall_filter {A : Type} (P : A -> Prop) (f : A -> bool) (l : list A) :
  Forall P l -> Forall P (filter f l).
Proof.
  rewrite !Forall_forall; intros H x Hx.
  apply filter_In in Hx; apply H, Hx.
Qed.

(* ================================================================== *)
(** ** Facts about the scans *)
(* ================================================================== *)

Section ScanFacts.

Context {np : Numpy} {pd : Pandas}.

Lemma sort_values_desc_nil {A : Type} (key : A -> float) :
  sort_values_desc key (@nil A) = [].
Proof.
  apply Permutation_nil, Permutation_sym, sort_values_desc_perm.
Qed.

Lemma sort_values_desc_In {A : Type} (key : A -> float) (l : list A) (x : A) :
  In x (sort_values_desc key l) -> In x l.
Proof. apply Permutation_in, sort_values_desc_perm. Qed.

(** *** The correlation primitives *)

Lemma calculate_ytd_correlation_defined
    (w : World) (self : PatternMatcher) (year1 year2 : Z) :
  F64.isnan (calculate_ytd_correlation w self year1 year2) = false ->
  (20 <= length (ytd_data self year1 (month (now w)) (day (now w))))%nat /\
  (20 <= length (ytd_data self year2 (month (now w)) (day (now w))))%nat.
Proof.
  unfold calculate_ytd_correlation, calculate_ytd_correlation_try.
  destruct (Nat.ltb_spec
              (Nat.min
                 (length (ytd_data self year1 (month (now w)) (day (now w))))
                 (length (ytd_data self year2 (month (now w)) (day (now w)))))
              20) as [Hlt|Hge].
  - simpl; discriminate.
  - intros _; lia.
Qed.

Lemma calculate_quarterly_correlation_defined
    (self : PatternMatcher) (year1 q1 year2 q2 : Z) :
  F64.isnan (calculate_quarterly_correlation self year1 q1 year2 q2) = false ->
  (15 <= length (get_quarter_data self year1 q1))%nat /\
  (15 <= length (get_quarter_data self year2 q2))%nat.
Proof.
  unfold calculate_quarterly_correlation, calculate_quarterly_correlation_try.
  destruct (Nat.ltb_spec (length (get_quarter_data self year1 q1)) 15);
    [simpl; discriminate|].
  destruct (Nat.ltb_spec (length (get_quarter_data self year2 q2)) 15);
    [simpl; discriminate|].
  intros _; lia.
Qed.

Lemma calculate_ytd_correlation_short
    (w : World) (self : PatternMatcher) (year1 year2 : Z) :
  (Nat.min (length (ytd_data self year1 (month (now w)) (day (now w))))
           (length (ytd_data self year2 (month (now w)) (day (now w))))
   < 20)%nat ->
  calculate_ytd_correlation w self year1 year2 = F64.nan.
Proof.
  intros H.
  unfold calculate_ytd_correlation, calculate_ytd_correlation_try.
  apply Nat.ltb_lt in H; rewrite H; reflexivity.
Qed.

Lemma calculate_quarterly_correlation_short
    (self : PatternMatcher) (year1 q1 year2 q2 : Z) :
  (Nat.min (length (get_quarter_data self year1 q1))
           (length (get_quarter_data self year2 q2)) < 15)%nat ->
  calculate_quarterly_correlation self year1 q1 year2 q2 = F64.nan.
Proof.
  intros H.
  unfold calculate_quarterly_correlation, calculate_quarterly_correlation_try.
  destruct (Nat.ltb_spec (length (get_quarter_data self year1 q1)) 15);
    [reflexivity|].
  destruct (Nat.ltb_spec (length (get_quarter_data self year2 q2)) 15);
    [reflexivity|lia].
Qed.

(** *** The year scan *)

Lemma ytd_data_year_data (self : PatternMatcher) (y m d : Z) :
  (length (ytd_data self y m d)
   <= length (filter (in_year y) (data self)))%nat.
Proof. apply filter_length_le. Qed.

Lemma find_similar_years_step_app
    (w : World) (self : PatternMatcher) (ref : Z) (mc : float) (y : Z)
    (acc : list YearRow.t) :
  find_similar_years_step w self ref mc y acc
  = Ok (acc ++ year_candidate w self ref mc y).
Proof.
  unfold year_candidate, find_similar_years_step.
  destruct (y =? ref); simpl; [now rewrite app_nil_r|].
  destruct (negb _ && _); simpl; [|now rewrite app_nil_r].
  destruct (Nat.ltb_spec 0 (length (filter (in_year y) (data self))))
    as [Hpos|Hz]; simpl; [|reflexivity].
  destruct (total_return_ok _ (nonempty_of_length _ Hpos))
    as [l [f [_ [_ E]]]].
  rewrite E; reflexivity.
Qed.

Lemma find_similar_years_loop_app
    (w : World) (self : PatternMatcher) (ref : Z) (mc : float)
    (years : list Z) :
  forall acc,
    find_similar_years_loop w self ref mc years acc
    = Ok (acc ++ kept_years w self ref mc years).
Proof.
  induction years as [|y years IH]; intros acc; simpl.
  - now rewrite app_nil_r.
  - rewrite find_similar_years_step_app; simpl.
    rewrite IH, app_assoc; reflexivity.
Qed.

Lemma find_similar_years_eq
    (w : World) (self : PatternMatcher) (ref : Z) (mc : float) :
  find_similar_years w self ref mc
  = Ok (head (TOP_N_SIMILAR w)
             (sort_values_desc YearRow.correlation
                (kept_years w self ref mc (scanned_years self)))).
Proof.
  unfold find_similar_years.
  rewrite find_similar_years_loop_app; simpl.
  fold (scanned_years self).
  destruct (kept_years w self ref mc (scanned_years self)); [|reflexivity].
  now rewrite sort_values_desc_nil, head_nil.
Qed.

Lemma year_candidate_spec
    (w : World) (self : PatternMatcher) (ref : Z) (mc : float) (y : Z)
    (r : YearRow.t) :
  In r (year_candidate w self ref mc y) ->
  YearRow.year r = y /\ y <> ref /\
  YearRow.correlation r = calculate_ytd_correlation w self ref y /\
  F64.isnan (YearRow.correlation r) = false /\
  F64.geb (YearRow.correlation r) mc = true /\
  total_return (filter (in_year y) (data self)) = Ok (YearRow.year_return r) /\
  YearRow.ytd_return_at_similar_point r
  = _get_ytd_return self y (month (now w)) (day (now w)).
Proof.
  unfold year_candidate, find_similar_years_step.
  destruct (Z.eqb_spec y ref) as [|Hne]; simpl; [contradiction|].
  destruct (F64.isnan (calculate_ytd_correlation w self ref y)) eqn:Hnan;
    simpl; [contradiction|].
  destruct (F64.geb (calculate_ytd_correlation w self ref y) mc) eqn:Hge;
    simpl; [|contradiction].
  destruct (calculate_ytd_correlation_defined w self ref y Hnan) as [_ Hlen].
  pose proof (ytd_data_year_data self y (month (now w)) (day (now w))) as Hle.
  destruct (Nat.ltb_spec 0 (length (filter (in_year y) (data self))))
    as [Hpos|Hz]; [|lia].
  destruct (total_return_ok _ (nonempty_of_length _ Hpos))
    as [l [f [_ [_ E]]]].
  rewrite E; simpl.
  intros [<-|[]]; simpl; auto 10.
Qed.

Lemma kept_years_spec
    (w : World) (self : PatternMatcher) (ref : Z) (mc : float)
    (years : list Z) (r : YearRow.t) :
  In r (kept_years w self ref mc years) ->
  In (YearRow.year r) years /\
  In r (year_candidate w self ref mc (YearRow.year r)).
Proof.
  unfold kept_years; rewrite in_flat_map; intros [y [Hy Hr]].
  destruct (year_candidate_spec _ _ _ _ _ _ Hr) as [E _].
  subst y; auto.
Qed.

(** *** The quarter scan *)

Lemma find_similar_quarters_step_app
    (self : PatternMatcher) (ry rq : Z) (mc : float) (y q : Z)
    (acc : list QuarterRow.t) :
  find_similar_quarters_step self ry rq mc y q acc
  = acc ++ quarter_candidate self ry rq mc y q.
Proof.
  unfold quarter_candidate, find_similar_quarters_step.
  destruct ((y =? ry) && (q =? rq)); [now rewrite app_nil_r|].
  destruct (negb _ && _); [reflexivity | now rewrite app_nil_r].
Qed.

Lemma find_similar_quarters_inner_app
    (self : PatternMatcher) (ry rq : Z) (mc : float) (y : Z)
    (acc : list QuarterRow.t) :
  find_similar_quarters_inner self ry rq mc y acc
  = acc ++ flat_map (quarter_candidate self ry rq mc y) [1; 2; 3; 4].
Proof.
  unfold find_similar_quarters_inner; simpl.
  rewrite !find_similar_quarters_step_app, app_nil_r, <- !app_assoc.
  reflexivity.
Qed.

Lemma find_similar_quarters_loop_app
    (self : PatternMatcher) (ry rq : Z) (mc : float) (years : list Z) :
  forall acc,
    find_similar_quarters_loop self ry rq mc years acc
    = acc ++ kept_quarters self ry rq mc years.
Proof.
  unfold find_similar_quarters_loop.
  induction years as [|y years IH]; intros acc.
  - simpl; now rewrite app_nil_r.
  - cbn [fold_left]. rewrite IH, find_similar_quarters_inner_app.
    unfold kept_quarters; cbn [flat_map].
    now rewrite <- app_assoc.
Qed.

Lemma find_similar_quarters_eq
    (w : World) (self : PatternMatcher) (ry rq : Z) (mc : float) :
  find_similar_quarters w self ry rq mc
  = Ok (head (TOP_N_SIMILAR w)
             (sort_values_desc QuarterRow.correlation
                (kept_quarters self ry rq mc (scanned_years self)))).
Proof.
  unfold find_similar_quarters.
  rewrite find_similar_quarters_loop_app; simpl.
  fold (scanned_years self).
  destruct (kept_quarters self ry rq mc (scanned_years self)); [|reflexivity].
  now rewrite sort_values_desc_nil, head_nil.
Qed.

Lemma quarter_candidate_spec
    (self : PatternMatcher) (ry rq : Z) (mc : float) (y q : Z)
    (r : QuarterRow.t) :
  In r (quarter_candidate self ry rq mc y q) ->
  QuarterRow.year r = y /\ QuarterRow.quarter r = q /\
  ~ (y = ry /\ q = rq) /\
  QuarterRow.year_quarter r = year_quarter_label y q /\
  QuarterRow.correlation r
  = calculate_quarterly_correlation self ry rq y q /\
  F64.isnan (QuarterRow.correlation r) = false /\
  F64.geb (QuarterRow.correlation r) mc = true /\
  QuarterRow.quarter_return r = _get_quarter_return self y q.
Proof.
  unfold quarter_candidate, find_similar_quarters_step.
  destruct (Z.eqb_spec y ry) as [Ey|Ny], (Z.eqb_spec q rq) as [Eq|Nq];
    simpl; try contradiction;
    (destruct (F64.isnan (calculate_quarterly_correlation self ry rq y q))
       eqn:Hnan; simpl; [contradiction|]);
    (destruct (F64.geb (calculate_quarterly_correlation self ry rq y q) mc)
       eqn:Hge; simpl; [|contradiction]);
    intros [<-|[]]; simpl; repeat split; auto; intros [? ?]; contradiction.
Qed.

Lemma kept_quarters_spec
    (self : PatternMatcher) (ry rq : Z) (mc : float) (years : list Z)
    (r : QuarterRow.t) :
  In r (kept_quarters self ry rq mc years) ->
  In (QuarterRow.year r) years /\
  In (QuarterRow.quarter r) [1; 2; 3; 4] /\
  In r (quarter_candidate self ry rq mc
                          (QuarterRow.year r) (QuarterRow.quarter r)).
Proof.
  unfold kept_quarters; rewrite in_flat_map; intros [y [Hy Hr]].
  rewrite in_flat_map in Hr; destruct Hr as [q [Hq Hr]].
  destruct (quarter_candidate_spec _ _ _ _ _ _ _ Hr) as [E1 [E2 _]].
  subst y q; auto.
Qed.

End ScanFacts.

(* ================================================================== *)
(** ** Properties of the ranking scans *)
(* ================================================================== *)

Section Ranking.

Context {np : Numpy} {pd : Pandas}.

Lemma returned_year_row
    (w : World) (self : PatternMatcher) (ry : Z) (mc : float) (r : YearRow.t) :
  In r (head (TOP_N_SIMILAR w)
             (sort_values_desc YearRow.correlation
                (kept_years w self ry mc (scanned_years self)))) ->
  In r (year_candidate w self ry mc (YearRow.year r)).
Proof.
  intros H; apply head_incl, sort_values_desc_In in H.
  apply kept_years_spec in H; tauto.
Qed.

Lemma returned_quarter_row
    (w : World) (self : PatternMatcher) (ry rq : Z) (mc : float)
    (r : QuarterRow.t) :
  In r (head (TOP_N_SIMILAR w)
             (sort_values_desc QuarterRow.correlation
                (kept_quarters self ry rq mc (scanned_years self)))) ->
  In r (quarter_candidate self ry rq mc
                          (QuarterRow.year r) (QuarterRow.quarter r)).
Proof.
  intros H; apply head_incl, sort_values_desc_In in H.
  apply kept_quarters_spec in H; tauto.
Qed.

Lemma kept_years_not_nan
    (w : World) (self : PatternMatcher) (ry : Z) (mc : float) (years : list Z) :
  Forall (fun r => F64.isnan (YearRow.correlation r) = false)
         (kept_years w self ry mc years).
Proof.
  apply Forall_forall; intros r H.
  apply kept_years_spec in H; destruct H as [_ H].
  apply year_candidate_spec in H; tauto.
Qed.

Lemma kept_quarters_not_nan
    (self : PatternMatcher) (ry rq : Z) (mc : float) (years : list Z) :
  Forall (fun r => F64.isnan (QuarterRow.correlation r) = false)
         (kept_quarters self ry rq mc years).
Proof.
  apply Forall_forall; intros r H.
  apply kept_quarters_spec in H; destruct H as [_ [_ H]].
  apply quarter_candidate_spec in H; tauto.
Qed.

(** C1. Whatever the series, the reference period, the threshold and
    [TOP_N_SIMILAR], both scans return normally; every row they return has
    a correlation that is not NaN and is [>= min_correlation]; and the
    correlations never increase from any row to any later row. *)
Theorem C1_rows_clear_threshold_in_descending_order
    (w : World) (self : PatternMatcher) (ry rq : Z) (mc : float) :
  returns_with
    (fun rows =>
       Forall (fun r => F64.isnan (YearRow.correlation r) = false /\
                        F64.geb (YearRow.correlation r) mc = true) rows /\
       non_increasing_pairwise YearRow.correlation rows)
    (find_similar_years w self ry mc)
  /\
  returns_with
    (fun rows =>
       Forall (fun r => F64.isnan (QuarterRow.correlation r) = false /\
                        F64.geb (QuarterRow.correlation r) mc = true) rows /\
       non_increasing_pairwise QuarterRow.correlation rows)
    (find_similar_quarters w self ry rq mc).
Proof.
  rewrite find_similar_years_eq, find_similar_quarters_eq; simpl.
  repeat split.
  - apply Forall_forall; intros r H.
    apply returned_year_row, year_candidate_spec in H; tauto.
  - apply non_increasing_pairwise_of, head_sorted, sort_values_desc_sorted,
      kept_years_not_nan.
  - apply Forall_forall; intros r H.
    apply returned_quarter_row, quarter_candidate_spec in H; tauto.
  - apply non_increasing_pairwise_of, head_sorted, sort_values_desc_sorted,
      kept_quarters_not_nan.
Qed.

(** C7. The reference period is never among its own matches:
    [find_similar_years] returns no row whose year is the reference year,
    [find_similar_quarters] no row whose year and quarter are both those of
    the reference. *)
Theorem C7_reference_period_not_returned
    (w : World) (self : PatternMatcher) (ry rq : Z) (mc : float) :
  returns_with
    (Forall (fun r => YearRow.year r <> ry))
    (find_similar_years w self ry mc)
  /\
  returns_with
    (Forall (fun r => ~ (QuarterRow.year r = ry /\ QuarterRow.quarter r = rq)))
    (find_similar_quarters w self ry rq mc).
Proof.
  rewrite find_similar_years_eq, find_similar_quarters_eq; simpl.
  split; apply Forall_forall; intros r H.
  - apply returned_year_row, year_candidate_spec in H; tauto.
  - apply returned_quarter_row, quarter_candidate_spec in H; tauto.
Qed.

(** C2. The year-level correlation is NaN as soon as the shorter of the two
    year-to-date extracts has fewer than 20 rows, the quarter-level one as
    soon as the shorter of the two quarter extracts has fewer than 15; and
    every row a scan returns, at any threshold, belongs to a period whose
    extract reaches that length (as does the reference period's). *)
Theorem C2_short_periods_are_undefined_and_never_ranked
    (w : World) (self : PatternMatcher)
    (year1 q1 year2 q2 : Z) (ry rq : Z) (mc : float) :
  let m := month (now w) in
  let d := day (now w) in
  ((Nat.min (length (ytd_data self year1 m d))
            (length (ytd_data self year2 m d)) < 20)%nat ->
   calculate_ytd_correlation w self year1 year2 = F64.nan)
  /\
  ((Nat.min (length (get_quarter_data self year1 q1))
            (length (get_quarter_data self year2 q2)) < 15)%nat ->
   calculate_quarterly_correlation self year1 q1 year2 q2 = F64.nan)
  /\
  returns_with
    (Forall (fun r =>
               (20 <= length (ytd_data self (YearRow.year r) m d))%nat /\
               (20 <= length (ytd_data self ry m d))%nat))
    (find_similar_years w self ry mc)
  /\
  returns_with
    (Forall (fun r =>
               (15 <= length (get_quarter_data self (QuarterRow.year r)
                                               (QuarterRow.quarter r)))%nat /\
               (15 <= length (get_quarter_data self ry rq))%nat))
    (find_similar_quarters w self ry rq mc).
Proof.
  intros m d; repeat split.
  - apply calculate_ytd_correlation_short.
  - apply calculate_quarterly_correlation_short.
  - rewrite find_similar_years_eq; simpl.
    apply Forall_forall; intros r H.
    apply returned_year_row, year_candidate_spec in H.
    destruct H as [_ [_ [E [Hnan _]]]]; rewrite E in Hnan.
    apply calculate_ytd_correlation_defined in Hnan; subst m d; tauto.
  - rewrite find_similar_quarters_eq; simpl.
    apply Forall_forall; intros r H.
    apply returned_quarter_row, quarter_candidate_spec in H.
    destruct H as [_ [_ [_ [_ [E [Hnan _]]]]]]; rewrite E in Hnan.
    apply calculate_quarterly_correlation_defined in Hnan; tauto.
Qed.


End Ranking.

(** C2 at work: 2014 has ten sessions, so its correlation with 2012 is NaN at
    both levels. *)
Lemma C2_witness :
  calculate_ytd_correlation Sample.end_of_january Sample.matcher 2012 2014
  = F64.nan
  /\ calculate_quarterly_correlation Sample.matcher 2012 1 2014 1 = F64.nan.
Proof.
  destruct (C2_short_periods_are_undefined_and_never_ranked
              Sample.end_of_january Sample.matcher 2012 1 2014 1 2012 1
              Sample.min_correlation) as [Hy [Hq _]].
  split; [apply Hy | apply Hq]; vm_compute; lia.
Defined.


(* ================================================================== *)
(** ** The empty series *)
(* ================================================================== *)

(** C3 as stated fails: on an empty series the analysis call raises
    [ValueError] instead of returning an empty result. *)
Lemma C3_empty_series_raises :
  analyse_years Sample.end_of_january [] 2012 Sample.min_correlation
  = Raise (ValueError "DataFrame vuoto")
  /\ analyse_years Sample.end_of_january [] 2012 Sample.min_correlation
     <> Ok []
  /\ analyse_quarters Sample.end_of_january [] 2012 1 Sample.min_correlation
     <> Ok [].
Proof. repeat split; discriminate. Qed.

(** C3, amended. On an empty series building the matcher raises
    [ValueError("DataFrame vuoto")] and no scan runs; on a series with at
    least one row the matcher is built and both scans return normally,
    whatever the library call does. *)
Theorem C3_empty_series_is_rejected_at_construction
    {np : Numpy} {pd : Pandas}
    (w : World) (ry rq : Z) (mc : float) (r : Row) (d : DataFrame) :
  analyse_years w [] ry mc = Raise (ValueError "DataFrame vuoto")
  /\ analyse_quarters w [] ry rq mc = Raise (ValueError "DataFrame vuoto")
  /\ returns_with (fun _ => True) (analyse_years w (r :: d) ry mc)
  /\ returns_with (fun _ => True) (analyse_quarters w (r :: d) ry rq mc).
Proof.
  repeat split; unfold analyse_years, analyse_quarters; simpl.
  - rewrite find_similar_years_eq; exact I.
  - rewrite find_similar_quarters_eq; exact I.
Qed.

(* ================================================================== *)
(** ** What a call depends on *)
(* ================================================================== *)

(** C4 as stated fails: the same series, reference year, threshold and
    [TOP_N_SIMILAR] give different results on 31 January and on 10 January. *)
Lemma C4_year_scan_depends_on_the_clock :
  TOP_N_SIMILAR Sample.end_of_january = TOP_N_SIMILAR Sample.tenth_of_january
  /\ find_similar_years Sample.end_of_january Sample.matcher 2012
                        Sample.min_correlation
     <> find_similar_years Sample.tenth_of_january Sample.matcher 2012
                           Sample.min_correlation.
Proof.
  split; [reflexivity|].
  intros H; vm_compute in H; discriminate H.
Qed.

Section Dependence.

Context {np : Numpy} {pd : Pandas}.

Lemma year_candidate_same_inputs
    (w1 w2 : World) (self1 self2 : PatternMatcher) (ry : Z) (mc : float)
    (y : Z) :
  data self1 = data self2 ->
  month (now w1) = month (now w2) ->
  day (now w1) = day (now w2) ->
  year_candidate w1 self1 ry mc y = year_candidate w2 self2 ry mc y.
Proof.
  destruct w1 as [[y1 m1 d1] n1], w2 as [[y2 m2 d2] n2].
  destruct self1 as [dt1 c1], self2 as [dt2 c2]; simpl.
  intros -> -> ->; reflexivity.
Qed.

Lemma quarter_candidate_same_inputs
    (self1 self2 : PatternMatcher) (ry rq : Z) (mc : float) (y q : Z) :
  data self1 = data self2 ->
  quarter_candidate self1 ry rq mc y q = quarter_candidate self2 ry rq mc y q.
Proof.
  destruct self1 as [dt1 c1], self2 as [dt2 c2]; simpl.
  intros ->; reflexivity.
Qed.

(** C4, amended. [find_similar_quarters] is a function of the series, the
    reference year and quarter, the threshold and [TOP_N_SIMILAR] alone;
    [find_similar_years] is a function of the series, the reference year,
    the threshold, [TOP_N_SIMILAR] and the month and day of the host's
    clock.  Nothing else in the state is read. *)
Theorem C4_scans_depend_on_inputs_and_clock_only
    (w1 w2 : World) (self1 self2 : PatternMatcher) (ry rq : Z) (mc : float) :
  data self1 = data self2 ->
  TOP_N_SIMILAR w1 = TOP_N_SIMILAR w2 ->
  find_similar_quarters w1 self1 ry rq mc
  = find_similar_quarters w2 self2 ry rq mc
  /\ (month (now w1) = month (now w2) ->
      day (now w1) = day (now w2) ->
      find_similar_years w1 self1 ry mc = find_similar_years w2 self2 ry mc).
Proof.
  intros Hd Hn; split; [|intros Hm Hday].
  - rewrite !find_similar_quarters_eq, Hn.
    unfold kept_quarters, scanned_years; rewrite Hd.
    do 3 f_equal.
    apply flat_map_ext; intros y.
    apply flat_map_ext; intros q.
    apply quarter_candidate_same_inputs, Hd.
  - rewrite !find_similar_years_eq, Hn.
    unfold kept_years, scanned_years; rewrite Hd.
    do 3 f_equal.
    apply flat_map_ext; intros y.
    apply year_candidate_same_inputs; assumption.
Qed.

End Dependence.

(** C4 at work: a host whose clock shows the same month and day of another
    year gives the same two scans. *)
Lemma C4_witness :
  find_similar_quarters
    Sample.end_of_january Sample.matcher 2012 1 Sample.min_correlation
  = find_similar_quarters
      {| now := {| year := 2030; month := 1; day := 31 |}; TOP_N_SIMILAR := 5 |}
      Sample.matcher 2012 1 Sample.min_correlation
  /\ find_similar_years
       Sample.end_of_january Sample.matcher 2012 Sample.min_correlation
     = find_similar_years
         {| now := {| year := 2030; month := 1; day := 31 |};
            TOP_N_SIMILAR := 5 |}
         Sample.matcher 2012 Sample.min_correlation.
Proof.
  destruct (C4_scans_depend_on_inputs_and_clock_only
              Sample.end_of_january
              {| now := {| year := 2030; month := 1; day := 31 |};
                 TOP_N_SIMILAR := 5 |}
              Sample.matcher Sample.matcher
              2012 1 Sample.min_correlation eq_refl eq_refl) as [Hq Hy].
  split; [exact Hq | exact (Hy eq_refl eq_refl)].
Defined.

(* ================================================================== *)
(** ** The cumulative-return paths *)
(* ================================================================== *)











(* ================================================================== *)
(** ** Failures while scoring one candidate *)
(* ================================================================== *)

Section Failures.

Context {np : Numpy} {pd : Pandas}.

Lemma year_candidate_nan
    (w : World) (self : PatternMatcher) (ry : Z) (mc : float) (y : Z) :
  F64.isnan (calculate_ytd_correlation w self ry y) = true ->
  year_candidate w self ry mc y = [].
Proof.
  intros H; unfold year_candidate, find_similar_years_step.
  destruct (y =? ry); [reflexivity|].
  rewrite H; reflexivity.
Qed.

Lemma quarter_candidate_nan
    (self : PatternMatcher) (ry rq : Z) (mc : float) (y q : Z) :
  F64.isnan (calculate_quarterly_correlation self ry rq y q) = true ->
  quarter_candidate self ry rq mc y q = [].
Proof.
  intros H; unfold quarter_candidate, find_similar_quarters_step.
  destruct ((y =? ry) && (q =? rq)); [reflexivity|].
  rewrite H; reflexivity.
Qed.


End Failures.


(* ================================================================== *)
(** ** Order of the returned rows *)
(* ================================================================== *)


(** *** The stable insertion sort keeps equal keys in place *)



(** *** The scan goes through the periods in ascending order *)

Lemma insert_sorted_perm (x : Z) (l : list Z) :
  Permutation (insert_sorted x l) (x :: l).
Proof.
  induction l as [|y l IH]; simpl; [apply Permutation_refl|].
  destruct (x <=? y); [apply Permutation_refl|].
  apply perm_trans with (y :: x :: l); [apply perm_skip, IH | apply perm_swap].
Qed.

Lemma sorted_perm (l : list Z) : Permutation (sorted l) l.
Proof.
  induction l as [|x l IH]; simpl; [apply perm_nil|].
  apply perm_trans with (x :: sorted l);
    [apply insert_sorted_perm | apply perm_skip, IH].
Qed.

Lemma insert_sorted_le (x : Z) (l : list Z) :
  StronglySorted Z.le l -> StronglySorted Z.le (insert_sorted x l).
Proof.
  induction l as [|y l IH]; simpl; intros H.
  - repeat constructor.
  - inversion H as [|? ? Hs Hall]; subst.
    destruct (Z.leb_spec x y).
    + constructor; [exact H|].
      constructor; [assumption|].
      eapply Forall_impl; [|exact Hall]; simpl; intros; lia.
    + constructor; [apply IH, Hs|].
      apply (Permutation_Forall (x := x :: l)).
      * apply Permutation_sym, insert_sorted_perm.
      * constructor; [lia | exact Hall].
Qed.

Lemma sorted_le (l : list Z) : StronglySorted Z.le (sorted l).
Proof.
  induction l as [|x l IH]; simpl; [constructor | apply insert_sorted_le, IH].
Qed.

Lemma unique_NoDup (l : list Z) : NoDup (unique l).
Proof.
  induction l as [|x l IH]; simpl; constructor.
  - rewrite filter_In; intros [_ H]. now rewrite Z.eqb_refl in H.
  - apply NoDup_filter, IH.
Qed.

Lemma le_NoDup_lt (l : list Z) :
  StronglySorted Z.le l -> NoDup l -> StronglySorted Z.lt l.
Proof.
  induction l as [|x l IH]; intros Hs Hn; [constructor|].
  inversion Hs as [|? ? Hs' Hall]; inversion Hn as [|? ? Hx Hn']; subst.
  constructor; [auto|].
  rewrite Forall_forall in *; intros y Hy.
  specialize (Hall y Hy).
  assert (x <> y) by (intros ->; contradiction).
  lia.
Qed.

Lemma scanned_years_ascending (self : PatternMatcher) :
  StronglySorted Z.lt (scanned_years self).
Proof.
  unfold scanned_years; apply le_NoDup_lt; [apply sorted_le|].
  apply (Permutation_NoDup (l := unique (map (fun r => year (index r))
                                              (data self)))).
  - apply Permutation_sym, sorted_perm.
  - apply unique_NoDup.
Qed.

Lemma StronglySorted_app {A : Type} (R : A -> A -> Prop) (l1 l2 : list A) :
  StronglySorted R l1 -> StronglySorted R l2 ->
  (forall a b, In a l1 -> In b l2 -> R a b) ->
  StronglySorted R (l1 ++ l2).
Proof.
  induction l1 as [|x l1 IH]; simpl; intros H1 H2 H12; [exact H2|].
  inversion H1 as [|? ? Hs Hall]; subst.
  constructor.
  - apply IH; auto.
  - apply Forall_app; split; [exact Hall|].
    apply Forall_forall; intros b Hb; apply H12; auto.
Qed.

Lemma flat_map_StronglySorted
    {A B : Type} (RA : A -> A -> Prop) (RB : B -> B -> Prop)
    (f : A -> list B) (l : list A) :
  StronglySorted RA l ->
  (forall a, In a l -> StronglySorted RB (f a)) ->
  (forall a a' b b', RA a a' -> In b (f a) -> In b' (f a') -> RB b b') ->
  StronglySorted RB (flat_map f l).
Proof.
  intros Hl Hf Hcross; induction l as [|a l IH]; simpl; [constructor|].
  inversion Hl as [|? ? Hs Hall]; subst.
  apply StronglySorted_app.
  - apply Hf; simpl; auto.
  - apply IH; [exact Hs | intros; apply Hf; simpl; auto].
  - intros b b' Hb Hb'.
    apply in_flat_map in Hb'; destruct Hb' as [a' [Ha' Hb']].
    rewrite Forall_forall in Hall.
    exact (Hcross a a' b b' (Hall a' Ha') Hb Hb').
Qed.

Lemma StronglySorted_at_most_one {A : Type} (R : A -> A -> Prop) (l : list A) :
  (length l <= 1)%nat -> StronglySorted R l.
Proof.
  destruct l as [|x [|y l]]; simpl; intros H; try lia; repeat constructor.
Qed.

Section ScanOrder.

Context {np : Numpy}.

Lemma year_candidate_at_most_one
    (w : World) (self : PatternMatcher) (ry : Z) (mc : float) (y : Z) :
  (length (year_candidate w self ry mc y) <= 1)%nat.
Proof.
  unfold year_candidate, find_similar_years_step.
  destruct (y =? ry); simpl; [lia|].
  destruct (negb _ && _); simpl; [|lia].
  destruct (0 <? length (filter (in_year y) (data self)))%nat; simpl; [|lia].
  destruct (total_return _); simpl; lia.
Qed.

Lemma quarter_candidate_at_most_one
    (self : PatternMatcher) (ry rq : Z) (mc : float) (y q : Z) :
  (length (quarter_candidate self ry rq mc y q) <= 1)%nat.
Proof.
  unfold quarter_candidate, find_similar_quarters_step.
  destruct ((y =? ry) && (q =? rq)); simpl; [lia|].
  destruct (negb _ && _); simpl; lia.
Qed.

Lemma kept_years_ascending
    (w : World) (self : PatternMatcher) (ry : Z) (mc : float) :
  StronglySorted (fun a b => YearRow.year a < YearRow.year b)
                 (kept_years w self ry mc (scanned_years self)).
Proof.
  unfold kept_years.
  apply (flat_map_StronglySorted Z.lt); [apply scanned_years_ascending | |].
  - intros; apply StronglySorted_at_most_one, year_candidate_at_most_one.
  - intros a a' b b' Haa' Hb Hb'.
    apply year_candidate_spec in Hb, Hb'.
    destruct Hb as [-> _], Hb' as [-> _]; exact Haa'.
Qed.

Lemma kept_quarters_ascending
    (self : PatternMatcher) (ry rq : Z) (mc : float) :
  StronglySorted quarter_before
                 (kept_quarters self ry rq mc (scanned_years self)).
Proof.
  unfold kept_quarters.
  apply (flat_map_StronglySorted Z.lt); [apply scanned_years_ascending | |].
  - intros y _.
    apply (flat_map_StronglySorted Z.lt).
    + repeat constructor; lia.
    + intros; apply StronglySorted_at_most_one, quarter_candidate_at_most_one.
    + intros q q' b b' Hqq' Hb Hb'.
      apply quarter_candidate_spec in Hb, Hb'.
      destruct Hb as [E1 [E2 _]], Hb' as [E1' [E2' _]].
      right; split; congruence || lia.
  - intros y y' b b' Hyy' Hb Hb'.
    apply in_flat_map in Hb, Hb'.
    destruct Hb as [q [_ Hb]], Hb' as [q' [_ Hb']].
    apply quarter_candidate_spec in Hb, Hb'.
    destruct Hb as [E1 _], Hb' as [E1' _].
    left; lia.
Qed.

End ScanOrder.



(* ================================================================== *)
(** ** Symmetry of the primitives, up to the library call *)
(* ================================================================== *)

Section Symmetry.

Context {np : Numpy}.

Lemma valid_mask_sym (a b : list float) : valid_mask a b = valid_mask b a.
Proof.
  unfold valid_mask; revert b.
  induction a as [|x a IH]; intros [|y b]; simpl; try reflexivity.
  rewrite IH, orb_comm; reflexivity.
Qed.

(** Extraction, truncation and masking treat the two periods alike: the
    primitives are symmetric as soon as the entry read from [np.corrcoef]
    is.  Whether it is, and whether it is exactly [1.0] on two equal paths,
    is a matter of how the installed numpy rounds. *)
Lemma correlation_symmetric_of_corrcoef
    (w : World) (self : PatternMatcher) (year1 q1 year2 q2 : Z) :
  (forall a b, corrcoef01 a b = corrcoef01 b a) ->
  calculate_ytd_correlation w self year1 year2
  = calculate_ytd_correlation w self year2 year1
  /\ calculate_quarterly_correlation self year1 q1 year2 q2
     = calculate_quarterly_correlation self year2 q2 year1 q1.
Proof.
  intros Hsym; split.
  - unfold calculate_ytd_correlation, calculate_ytd_correlation_try.
    rewrite (Nat.min_comm
               (length (ytd_data self year2 (month (now w)) (day (now w))))).
    destruct (_ <? 20)%nat; [reflexivity|].
    rewrite (valid_mask_sym (cum_returns_path (ytd_data self year2 _ _) _)).
    destruct (_ <? 20)%nat; [reflexivity|].
    apply Hsym.
  - unfold calculate_quarterly_correlation,
      calculate_quarterly_correlation_try.
    rewrite (orb_comm (length (get_quarter_data self year2 q2) <? 15)%nat).
    destruct (_ || _); [reflexivity|].
    rewrite (Nat.min_comm (length (get_quarter_data self year2 q2))).
    rewrite (valid_mask_sym (cum_returns_path (get_quarter_data self year2 q2) _)).
    destruct (_ <? 15)%nat; [reflexivity|].
    apply Hsym.
Qed.

End Symmetry.

(* ================================================================== *)
(** ** Further properties of the matcher *)
(* ================================================================== *)

Lemma quarter_months_outside (q : Z) :
  ~ In q [1; 2; 3; 4] -> quarter_months q = [].
Proof.
  intros H; unfold quarter_months.
  destruct q as [|p|p]; try reflexivity.
  destruct p as [[p|p|]|[p|[p|p|]|]|]; try reflexivity;
    exfalso; apply H; simpl; auto.
Qed.

Lemma filter_none {A : Type} (f : A -> bool) (l : list A) :
  (forall x, In x l -> f x = false) -> filter f l = [].
Proof.
  induction l as [|x l IH]; intros H; simpl; [reflexivity|].
  rewrite (H x) by (simpl; auto); apply IH; intros; apply H; simpl; auto.
Qed.

Lemma flat_map_nil {A B : Type} (f : A -> list B) (l : list A) :
  (forall a, In a l -> f a = []) -> flat_map f l = [].
Proof.
  induction l as [|a l IH]; intros H; simpl; [reflexivity|].
  rewrite (H a) by (simpl; auto); apply IH; intros; apply H; simpl; auto.
Qed.

Lemma get_quarter_data_outside (self : PatternMatcher) (y q : Z) :
  ~ In q [1; 2; 3; 4] -> get_quarter_data self y q = [].
Proof.
  intros H; unfold get_quarter_data.
  rewrite (quarter_months_outside q H).
  apply filter_none; reflexivity.
Qed.

Section Further.

Context {np : Numpy} {pd : Pandas}.

Lemma find_similar_years_none
    (w : World) (self : PatternMatcher) (ry : Z) (mc : float) :
  (forall y, In y (scanned_years self) ->
             year_candidate w self ry mc y = []) ->
  find_similar_years w self ry mc = Ok [].
Proof.
  intros H; rewrite find_similar_years_eq; unfold kept_years.
  rewrite (flat_map_nil _ _ H), sort_values_desc_nil, head_nil; reflexivity.
Qed.

Lemma find_similar_quarters_none
    (w : World) (self : PatternMatcher) (ry rq : Z) (mc : float) :
  (forall y q, In y (scanned_years self) -> In q [1; 2; 3; 4] ->
               quarter_candidate self ry rq mc y q = []) ->
  find_similar_quarters w self ry rq mc = Ok [].
Proof.
  intros H; rewrite find_similar_quarters_eq; unfold kept_quarters.
  rewrite flat_map_nil, sort_values_desc_nil, head_nil; [reflexivity|].
  intros y Hy; apply flat_map_nil; intros q Hq; apply H; assumption.
Qed.

(** X1. A quarter number outside 1..4 selects no row at all: its extract is
    empty, its correlation with any quarter is NaN, and a quarter scan whose
    reference quarter is such a number returns the empty frame. *)
Theorem invalid_quarter_selects_nothing
    (w : World) (self : PatternMatcher) (ry rq y q : Z) (mc : float) :
  ~ In rq [1; 2; 3; 4] ->
  get_quarter_data self ry rq = []
  /\ calculate_quarterly_correlation self ry rq y q = F64.nan
  /\ calculate_quarterly_correlation self y q ry rq = F64.nan
  /\ find_similar_quarters w self ry rq mc = Ok [].
Proof.
  intros H.
  pose proof (get_quarter_data_outside self ry rq H) as E.
  assert (Hnan : forall y' q',
             calculate_quarterly_correlation self ry rq y' q' = F64.nan).
  { intros y' q'; apply calculate_quarterly_correlation_short.
    rewrite E; simpl; lia. }
  repeat split; auto.
  - apply calculate_quarterly_correlation_short.
    rewrite E, Nat.min_0_r; lia.
  - apply find_similar_quarters_none; intros y' q' _ _.
    apply quarter_candidate_nan; rewrite Hnan; reflexivity.
Qed.

(** X2. A reference period that is too short matches nothing: when the
    reference year has fewer than 20 rows up to the cutoff (none at all, if
    the year is absent from the series) the year scan returns the empty
    frame at every threshold, and so does the quarter scan when the reference
    quarter has fewer than 15 rows. *)
Theorem short_reference_period_matches_nothing
    (w : World) (self : PatternMatcher) (ry rq : Z) (mc : float) :
  ((length (ytd_data self ry (month (now w)) (day (now w))) < 20)%nat ->
   find_similar_years w self ry mc = Ok [])
  /\
  ((length (get_quarter_data self ry rq) < 15)%nat ->
   find_similar_quarters w self ry rq mc = Ok []).
Proof.
  split; intros H.
  - apply find_similar_years_none; intros y _.
    apply year_candidate_nan.
    rewrite calculate_ytd_correlation_short by lia; reflexivity.
  - apply find_similar_quarters_none; intros y q _ _.
    apply quarter_candidate_nan.
    rewrite calculate_quarterly_correlation_short by lia; reflexivity.
Qed.

End Further.

(** X1 at work: quarter 5 of the sample series. *)
Lemma invalid_quarter_selects_nothing_witness :
  get_quarter_data Sample.matcher 2012 5 = []
  /\ calculate_quarterly_correlation Sample.matcher 2012 5 2010 1 = F64.nan
  /\ calculate_quarterly_correlation Sample.matcher 2010 1 2012 5 = F64.nan
  /\ find_similar_quarters Sample.end_of_january Sample.matcher 2012 5
                           Sample.min_correlation = Ok [].
Proof.
  apply (invalid_quarter_selects_nothing
           Sample.end_of_january Sample.matcher 2012 5 2010 1
           Sample.min_correlation).
  simpl; intros [H|[H|[H|[H|[]]]]]; discriminate H.
Defined.

(** X2 at work: the ten-session year 2014 as reference, and its first
    quarter. *)
Lemma short_reference_period_matches_nothing_witness :
  find_similar_years Sample.end_of_january Sample.matcher 2014
                     Sample.min_correlation = Ok []
  /\ find_similar_quarters Sample.end_of_january Sample.matcher 2014 1
                           Sample.min_correlation = Ok [].
Proof.
  destruct (short_reference_period_matches_nothing
              Sample.end_of_january Sample.matcher 2014 1
              Sample.min_correlation) as [Hy Hq].
  split; [apply Hy | apply Hq]; vm_compute; lia.
Defined.

(* ================================================================== *)
(** ** Quarters *)
(* ================================================================== *)

Lemma month_cases (m : Z) :
  1 <= m <= 12 ->
  m = 1 \/ m = 2 \/ m = 3 \/ m = 4 \/ m = 5 \/ m = 6 \/
  m = 7 \/ m = 8 \/ m = 9 \/ m = 10 \/ m = 11 \/ m = 12.
Proof. lia. Qed.

Lemma isin_at (ms : list Z) (r : Row) :
  isin ms r = existsb (Z.eqb (month (index r))) ms.
Proof. reflexivity. Qed.

Lemma quarters_split (l : DataFrame) :
  calendar_months l ->
  Permutation l
    (filter (isin (quarter_months 1)) l ++ filter (isin (quarter_months 2)) l
     ++ filter (isin (quarter_months 3)) l ++ filter (isin (quarter_months 4)) l).
Proof.
  induction 1 as [|r l Hm Hl IH]; [apply perm_nil|].
  cbn [filter]; rewrite !isin_at.
  destruct (month_cases _ Hm) as [E|[E|[E|[E|[E|[E|[E|[E|[E|[E|[E|E]]]]]]]]]]];
    rewrite E; cbn [quarter_months existsb Z.eqb Pos.eqb orb];
    first
      [ apply perm_skip, IH
      | apply Permutation_cons_app, IH
      | rewrite app_assoc; apply Permutation_cons_app;
        rewrite <- app_assoc; apply IH
      | rewrite 2 app_assoc; apply Permutation_cons_app;
        rewrite <- 2 app_assoc; apply IH ].
Qed.

(** X3. Over a series with calendar months, the four quarter extracts of a
    year share its rows out among themselves: put end to end they are a
    rearrangement of the year's rows, none lost and none taken twice. *)
Theorem quarter_extracts_partition_the_year (self : PatternMatcher) (y : Z) :
  calendar_months (data self) ->
  Permutation
    (filter (in_year y) (data self))
    (get_quarter_data self y 1 ++ get_quarter_data self y 2
     ++ get_quarter_data self y 3 ++ get_quarter_data self y 4).
Proof.
  intros H; unfold get_quarter_data.
  apply quarters_split, Forall_filter, H.
Qed.

(** X4. The quarter derived from the clock is one of 1..4 and is the quarter
    whose extract holds the rows of the current month: no row dated in the
    clock's year and month is left out of the reference quarter. *)
Theorem current_quarter_holds_current_month
    (w : World) (self : PatternMatcher) (r : Row) :
  1 <= month (now w) <= 12 ->
  In (current_quarter w) [1; 2; 3; 4]
  /\ (In r (data self) ->
      year (index r) = year (now w) ->
      month (index r) = month (now w) ->
      In r (get_quarter_data self (year (now w)) (current_quarter w))).
Proof.
  intros Hm; unfold current_quarter.
  assert (Hq : forall k, 3 * k - 2 <= month (now w) <= 3 * k ->
                         (month (now w) - 1) / 3 + 1 = k).
  { intros k Hk.
    assert ((month (now w) - 1) / 3 = k - 1); [|lia].
    symmetry; apply (Z.div_unique _ 3 _ (month (now w) - 1 - 3 * (k - 1))); lia. }
  split.
  - destruct (month_cases _ Hm) as [E|[E|[E|[E|[E|[E|[E|[E|[E|[E|[E|E]]]]]]]]]]];
      rewrite E; vm_compute; auto.
  - intros Hin Hy Hmo; unfold get_quarter_data.
    apply filter_In; split.
    + apply filter_In; split; [exact Hin|].
      unfold in_year; rewrite Hy; apply Z.eqb_refl.
    + unfold isin; rewrite Hmo.
      destruct (month_cases _ Hm)
        as [E|[E|[E|[E|[E|[E|[E|[E|[E|[E|[E|E]]]]]]]]]]];
        rewrite E; vm_compute; reflexivity.
Qed.

(** X3 at work on the sample series. *)
Lemma quarter_extracts_partition_the_year_witness :
  Permutation
    (filter (in_year 2012) (data Sample.matcher))
    (get_quarter_data Sample.matcher 2012 1 ++ get_quarter_data Sample.matcher 2012 2
     ++ get_quarter_data Sample.matcher 2012 3
     ++ get_quarter_data Sample.matcher 2012 4).
Proof.
  apply (quarter_extracts_partition_the_year Sample.matcher 2012).
  unfold calendar_months; vm_compute; repeat constructor; discriminate.
Defined.

(** X4 at work on 31 January 2012. *)
Lemma current_quarter_holds_current_month_witness :
  In (current_quarter Sample.end_of_january) [1; 2; 3; 4].
Proof.
  assert (Hm : 1 <= month (now Sample.end_of_january) <= 12) by (simpl; lia).
  destruct (current_quarter_holds_current_month
              Sample.end_of_january Sample.matcher
              {| index := {| year := 2012; month := 1; day := 4 |};
                 adjusted_close := F64.one; returns := F64.one;
                 cum_returns := F64.one |} Hm) as [H _].
  exact H.
Defined.

(* ================================================================== *)
(** ** Size and distinctness of the results *)
(* ================================================================== *)

Lemma head_length_le_n {A : Type} (n : Z) (l : list A) :
  0 <= n -> Z.of_nat (length (head n l)) <= n.
Proof.
  intros H; unfold head.
  destruct (Z.leb_spec 0 n); [|lia].
  pose proof (firstn_le_length (Z.to_nat n) l); lia.
Qed.

Lemma head_length_le {A : Type} (n : Z) (l : list A) :
  (length (head n l) <= length l)%nat.
Proof.
  destruct (head_prefix n l) as [rest E].
  rewrite E at 2; rewrite length_app; lia.
Qed.

Lemma head_NoDup {A : Type} (n : Z) (l : list A) :
  NoDup l -> NoDup (head n l).
Proof.
  destruct (head_prefix n l) as [rest E]; intros H.
  rewrite E in H; exact (NoDup_app_remove_r _ _ H).
Qed.

Lemma head_map {A B : Type} (f : A -> B) (n : Z) (l : list A) :
  map f (head n l) = head n (map f l).
Proof.
  unfold head; rewrite length_map.
  destruct (0 <=? n); symmetry; apply firstn_map.
Qed.

Lemma StronglySorted_NoDup_map
    {A B : Type} (R : A -> A -> Prop) (f : A -> B) (l : list A) :
  (forall a b, R a b -> f a <> f b) ->
  StronglySorted R l -> NoDup (map f l).
Proof.
  intros HR; induction 1 as [|a l Hs IH Hall]; simpl; constructor; auto.
  rewrite in_map_iff; intros [b [E Hb]].
  rewrite Forall_forall in Hall.
  exact (HR a b (Hall b Hb) (eq_sym E)).
Qed.

(** *** The label [f"{year}-Q{quarter}"] names its quarter *)

Lemma string_length_append (s t : string) :
  String.length (s ++ t) = (String.length s + String.length t)%nat.
Proof. induction s as [|c s IH]; simpl; [reflexivity | now rewrite IH]. Qed.

Lemma string_append_same_suffix_length (s s' t t' : string) :
  String.length t = String.length t' ->
  (s ++ t)%string = (s' ++ t')%string -> s = s' /\ t = t'.
Proof.
  intros Hlen; revert s'.
  induction s as [|c s IH]; intros [|c' s'] H; simpl in H.
  - auto.
  - apply (f_equal String.length) in H; simpl in H.
    rewrite string_length_append in H; lia.
  - apply (f_equal String.length) in H; simpl in H.
    rewrite string_length_append in H; lia.
  - injection H as -> H.
    destruct (IH s' H) as [-> ->]; auto.
Qed.

Lemma str_of_int_inj (y y' : Z) : str_of_int y = str_of_int y' -> y = y'.
Proof.
  unfold str_of_int; intros H.
  assert (Hnn : forall z, Z.to_int z <> Decimal.Pos Decimal.Nil
                          /\ Z.to_int z <> Decimal.Neg Decimal.Nil).
  { intros [|p|p]; simpl; split; try discriminate;
      intros E; injection E as E;
      exact (DecimalPos.Unsigned.to_uint_nonnil p E). }
  apply (f_equal DecimalString.NilZero.int_of_string) in H.
  rewrite !DecimalString.NilZero.isi in H by apply Hnn.
  injection H as H; apply DecimalZ.to_int_inj, H.
Qed.

Lemma year_quarter_label_inj (y q y' q' : Z) :
  In q [1; 2; 3; 4] -> In q' [1; 2; 3; 4] ->
  year_quarter_label y q = year_quarter_label y' q' -> y = y' /\ q = q'.
Proof.
  unfold year_quarter_label; intros Hq Hq' H.
  apply string_append_same_suffix_length in H.
  - destruct H as [Hy Hs]; split; [apply str_of_int_inj, Hy|].
    simpl in Hq, Hq'.
    destruct Hq as [<-|[<-|[<-|[<-|[]]]]], Hq' as [<-|[<-|[<-|[<-|[]]]]];
      try reflexivity; vm_compute in Hs; discriminate Hs.
  - simpl in Hq, Hq'.
    destruct Hq as [<-|[<-|[<-|[<-|[]]]]], Hq' as [<-|[<-|[<-|[<-|[]]]]];
      reflexivity.
Qed.

Section Sizes.

Context {np : Numpy} {pd : Pandas}.

Lemma kept_years_length
    (w : World) (self : PatternMatcher) (ry : Z) (mc : float) (years : list Z) :
  (length (kept_years w self ry mc years)
   <= length (filter (fun y => negb (y =? ry)%Z) years))%nat.
Proof.
  unfold kept_years; induction years as [|y years IH]; simpl; [lia|].
  rewrite length_app.
  pose proof (year_candidate_at_most_one w self ry mc y) as H1.
  destruct (Z.eqb_spec y ry) as [->|Hne]; simpl; [|lia].
  assert (E : year_candidate w self ry mc ry = []).
  { unfold year_candidate, find_similar_years_step.
    rewrite Z.eqb_refl; reflexivity. }
  rewrite E; simpl; exact IH.
Qed.

Lemma kept_quarters_length
    (self : PatternMatcher) (ry rq : Z) (mc : float) (years : list Z) :
  (length (kept_quarters self ry rq mc years) <= 4 * length years)%nat.
Proof.
  unfold kept_quarters; induction years as [|y years IH]; simpl; [lia|].
  rewrite !length_app.
  pose proof (quarter_candidate_at_most_one self ry rq mc y 1).
  pose proof (quarter_candidate_at_most_one self ry rq mc y 2).
  pose proof (quarter_candidate_at_most_one self ry rq mc y 3).
  pose proof (quarter_candidate_at_most_one self ry rq mc y 4).
  simpl in *; lia.
Qed.

(** X5. With a non-negative [TOP_N_SIMILAR], a scan returns at most
    [TOP_N_SIMILAR] rows, and never more than there are candidates: the
    distinct years of the series other than the reference year for the year
    scan, four quarters per distinct year for the quarter scan. *)
Theorem scans_return_at_most_top_n_rows
    (w : World) (self : PatternMatcher) (ry rq : Z) (mc : float) :
  0 <= TOP_N_SIMILAR w ->
  returns_with
    (fun rows =>
       Z.of_nat (length rows) <= TOP_N_SIMILAR w
       /\ (length rows
           <= length (filter (fun y => negb (y =? ry)%Z) (scanned_years self)))%nat)
    (find_similar_years w self ry mc)
  /\
  returns_with
    (fun rows =>
       Z.of_nat (length rows) <= TOP_N_SIMILAR w
       /\ (length rows <= 4 * length (scanned_years self))%nat)
    (find_similar_quarters w self ry rq mc).
Proof.
  intros Hn.
  rewrite find_similar_years_eq, find_similar_quarters_eq; simpl.
  repeat split; try (apply head_length_le_n, Hn).
  - etransitivity; [apply head_length_le|].
    rewrite (Permutation_length (sort_values_desc_perm _ _ _)).
    apply kept_years_length.
  - etransitivity; [apply head_length_le|].
    rewrite (Permutation_length (sort_values_desc_perm _ _ _)).
    apply kept_quarters_length.
Qed.

(** X6. No period is returned twice: the years of the rows of a year scan
    are pairwise distinct, and so are the (year, quarter) pairs and the
    [year_quarter] labels of the rows of a quarter scan. *)
Theorem scans_return_distinct_periods
    (w : World) (self : PatternMatcher) (ry rq : Z) (mc : float) :
  returns_with (fun rows => NoDup (map YearRow.year rows))
               (find_similar_years w self ry mc)
  /\
  returns_with
    (fun rows =>
       NoDup (map (fun r => (QuarterRow.year r, QuarterRow.quarter r)) rows)
       /\ NoDup (map QuarterRow.year_quarter rows))
    (find_similar_quarters w self ry rq mc).
Proof.
  rewrite find_similar_years_eq, find_similar_quarters_eq; simpl.
  repeat split; rewrite head_map; apply head_NoDup.
  - apply (Permutation_NoDup
             (l := map YearRow.year
                       (kept_years w self ry mc (scanned_years self)))).
    + apply Permutation_map, Permutation_sym, sort_values_desc_perm.
    + apply (StronglySorted_NoDup_map
               (fun a b => YearRow.year a < YearRow.year b));
        [intros; lia | apply kept_years_ascending].
  - apply (Permutation_NoDup
             (l := map (fun r => (QuarterRow.year r, QuarterRow.quarter r))
                       (kept_quarters self ry rq mc (scanned_years self)))).
    + apply Permutation_map, Permutation_sym, sort_values_desc_perm.
    + apply (StronglySorted_NoDup_map quarter_before);
        [|apply kept_quarters_ascending].
      intros a b [H|[H1 H2]] E; injection E as E1 E2; lia.
  - apply (Permutation_NoDup
             (l := map QuarterRow.year_quarter
                       (kept_quarters self ry rq mc (scanned_years self)))).
    + apply Permutation_map, Permutation_sym, sort_values_desc_perm.
    + assert (Hlab : forall r,
                 In r (kept_quarters self ry rq mc (scanned_years self)) ->
                 In (QuarterRow.quarter r) [1; 2; 3; 4]
                 /\ QuarterRow.year_quarter r
                    = year_quarter_label (QuarterRow.year r)
                                         (QuarterRow.quarter r)).
      { intros r Hr; apply kept_quarters_spec in Hr.
        destruct Hr as [_ [Hq Hr]].
        apply quarter_candidate_spec in Hr; tauto. }
      pose proof (kept_quarters_ascending self ry rq mc) as Hs.
      revert Hlab Hs.
      generalize (kept_quarters self ry rq mc (scanned_years self)).
      induction l as [|a l IH]; intros Hlab Hs; simpl; constructor.
      * rewrite in_map_iff; intros [b [E Hb]].
        inversion Hs as [|? ? _ Hall]; subst.
        rewrite Forall_forall in Hall; specialize (Hall b Hb).
        destruct (Hlab a (or_introl eq_refl)) as [Hqa Ea].
        destruct (Hlab b (or_intror Hb)) as [Hqb Eb].
        rewrite Ea, Eb in E.
        apply year_quarter_label_inj in E; auto.
        destruct E as [E1 E2], Hall as [H|[H1 H2]]; lia.
      * inversion Hs; subst.
        apply IH; [intros; apply Hlab; simpl; auto | assumption].
Qed.

End Sizes.

(** X5 at work on the sample series, where [TOP_N_SIMILAR] is 5. *)
Lemma scans_return_at_most_top_n_rows_witness :
  returns_with
    (fun rows =>
       Z.of_nat (length rows) <= TOP_N_SIMILAR Sample.end_of_january
       /\ (length rows
           <= length (filter (fun y => negb (y =? 2012)%Z)
                             (scanned_years Sample.matcher)))%nat)
    (find_similar_years Sample.end_of_january Sample.matcher 2012
                        Sample.min_correlation).
Proof.
  assert (Hn : 0 <= TOP_N_SIMILAR Sample.end_of_january) by (simpl; lia).
  destruct (scans_return_at_most_top_n_rows
              Sample.end_of_january Sample.matcher 2012 1
              Sample.min_correlation Hn) as [H _].
  exact H.
Defined.

(* ================================================================== *)
(** ** What a returned row holds *)
(* ================================================================== *)



Section Rows.

Context {np : Numpy} {pd : Pandas}.


(** X8. Over a series whose adjusted closes are all positive and finite,
    every row of a quarter scan comes from a quarter extract of at least 15
    rows and its [quarter_return] is not NaN. *)
Theorem returned_quarter_rows_have_defined_returns
    (w : World) (self : PatternMatcher) (ry rq : Z) (mc : float) :
  Forall (fun r => F64.positive_finite (adjusted_close r)) (data self) ->
  returns_with
    (Forall (fun r =>
       (15 <= length (get_quarter_data self (QuarterRow.year r)
                                       (QuarterRow.quarter r)))%nat
       /\ F64.isnan (QuarterRow.quarter_return r) = false))
    (find_similar_quarters w self ry rq mc).
Proof.
  intros Hpos.
  rewrite find_similar_quarters_eq; simpl.
  apply Forall_forall; intros r H.
  apply returned_quarter_row, quarter_candidate_spec in H.
  destruct H as [_ [_ [_ [_ [E [Hnan [_ Hret]]]]]]]; rewrite E in Hnan.
  apply calculate_quarterly_correlation_defined in Hnan.
  destruct Hnan as [_ Hlen]; split; [exact Hlen|].
  rewrite Hret; unfold _get_quarter_return, get_quarter_return_try.
  destruct (Nat.ltb_spec 1
              (length (get_quarter_data self (QuarterRow.year r)
                                        (QuarterRow.quarter r))));
    [|lia].
  assert (Hne : get_quarter_data self (QuarterRow.year r)
                                 (QuarterRow.quarter r) <> [])
    by (apply nonempty_of_length; lia).
  pose proof (total_return_not_nan _ Hne
                (Forall_filter _ _ _ (Forall_filter _ _ _ Hpos))) as Hr.
  destruct (total_return (get_quarter_data self (QuarterRow.year r)
                                           (QuarterRow.quarter r)));
    simpl in *; [exact Hr | contradiction].
Qed.

End Rows.

(** X8 at work on the sample series. *)
Lemma returned_quarter_rows_have_defined_returns_witness :
  returns_with
    (Forall (fun r =>
       (15 <= length (get_quarter_data Sample.matcher (QuarterRow.year r)
                                       (QuarterRow.quarter r)))%nat
       /\ F64.isnan (QuarterRow.quarter_return r) = false))
    (find_similar_quarters Sample.end_of_january Sample.matcher 2012 1
                           Sample.min_correlation).
Proof.
  apply (returned_quarter_rows_have_defined_returns
           Sample.end_of_january Sample.matcher 2012 1 Sample.min_correlation).
  vm_compute; repeat constructor.
Defined.

(* ================================================================== *)
(** ** Moving the threshold and the cutoff *)
(* ================================================================== *)

Lemma filter_length_mono {A : Type} (f g : A -> bool) (l : list A) :
  (forall x, f x = true -> g x = true) ->
  (length (filter f l) <= length (filter g l))%nat.
Proof.
  intros H; induction l as [|x l IH]; simpl; [lia|].
  destruct (f x) eqn:Ef.
  - rewrite (H x Ef); simpl; lia.
  - destruct (g x); simpl; lia.
Qed.

Lemma filter_all {A : Type} (f : A -> bool) (l : list A) :
  Forall (fun x => f x = true) l -> filter f l = l.
Proof.
  induction 1 as [|x l Hx Hl IH]; simpl; [reflexivity|].
  rewrite Hx, IH; reflexivity.
Qed.

Section Threshold.

Context {np : Numpy} {pd : Pandas}.

Lemma year_candidate_lower_threshold
    (w : World) (self : PatternMatcher) (ry : Z) (mc1 mc2 : float) (y : Z)
    (r : YearRow.t) :
  F64.leb mc1 mc2 = true ->
  In r (year_candidate w self ry mc2 y) ->
  In r (year_candidate w self ry mc1 y).
Proof.
  intros Hle; unfold year_candidate, find_similar_years_step.
  destruct (y =? ry); [auto|].
  destruct (F64.isnan (calculate_ytd_correlation w self ry y)); simpl; [auto|].
  destruct (F64.geb (calculate_ytd_correlation w self ry y) mc2) eqn:H2;
    simpl; [|contradiction].
  assert (H1 : F64.geb (calculate_ytd_correlation w self ry y) mc1 = true)
    by exact (F64Facts.leb_trans _ _ _ Hle H2).
  rewrite H1; auto.
Qed.

Lemma quarter_candidate_lower_threshold
    (self : PatternMatcher) (ry rq : Z) (mc1 mc2 : float) (y q : Z)
    (r : QuarterRow.t) :
  F64.leb mc1 mc2 = true ->
  In r (quarter_candidate self ry rq mc2 y q) ->
  In r (quarter_candidate self ry rq mc1 y q).
Proof.
  intros Hle; unfold quarter_candidate, find_similar_quarters_step.
  destruct ((y =? ry) && (q =? rq)); [auto|].
  destruct (F64.isnan (calculate_quarterly_correlation self ry rq y q));
    simpl; [auto|].
  destruct (F64.geb (calculate_quarterly_correlation self ry rq y q) mc2)
    eqn:H2; simpl; [|contradiction].
  assert (H1 : F64.geb (calculate_quarterly_correlation self ry rq y q) mc1
               = true)
    by exact (F64Facts.leb_trans _ _ _ Hle H2).
  rewrite H1; auto.
Qed.

Lemma kept_years_lower_threshold
    (w : World) (self : PatternMatcher) (ry : Z) (mc1 mc2 : float)
    (years : list Z) :
  F64.leb mc1 mc2 = true ->
  incl (kept_years w self ry mc2 years) (kept_years w self ry mc1 years).
Proof.
  intros Hle r; unfold kept_years; rewrite !in_flat_map.
  intros [y [Hy Hr]]; exists y; split; [exact Hy|].
  eapply year_candidate_lower_threshold; eassumption.
Qed.

Lemma kept_quarters_lower_threshold
    (self : PatternMatcher) (ry rq : Z) (mc1 mc2 : float) (years : list Z) :
  F64.leb mc1 mc2 = true ->
  incl (kept_quarters self ry rq mc2 years)
       (kept_quarters self ry rq mc1 years).
Proof.
  intros Hle r; unfold kept_quarters; rewrite !in_flat_map.
  intros [y [Hy Hr]]; exists y; split; [exact Hy|].
  rewrite in_flat_map in *; destruct Hr as [q [Hq Hr]].
  exists q; split; [exact Hq|].
  eapply quarter_candidate_lower_threshold; eassumption.
Qed.

Lemma head_positive_nil {A : Type} (n : Z) (l : list A) :
  0 < n -> head n l = [] -> l = [].
Proof.
  unfold head; intros Hn.
  destruct (Z.leb_spec 0 n); [|lia].
  destruct (Z.to_nat n) eqn:E; [lia|].
  destruct l; simpl; [reflexivity | discriminate].
Qed.

(** X9. Raising the threshold only removes matches: every candidate kept by
    either loop at a threshold [mc2] is kept, with the same row, at any
    threshold [mc1 <= mc2]; and with a positive [TOP_N_SIMILAR], a scan that
    returns nothing at [mc1] returns nothing at [mc2]. *)
Theorem raising_the_threshold_only_removes_matches
    (w : World) (self : PatternMatcher) (ry rq : Z) (mc1 mc2 : float)
    (years : list Z) :
  F64.leb mc1 mc2 = true ->
  returns_with
    (fun kept2 =>
       returns_with (fun kept1 => incl kept2 kept1)
                    (find_similar_years_loop w self ry mc1 years []))
    (find_similar_years_loop w self ry mc2 years [])
  /\ incl (find_similar_quarters_loop self ry rq mc2 years [])
          (find_similar_quarters_loop self ry rq mc1 years [])
  /\ (0 < TOP_N_SIMILAR w ->
      (find_similar_years w self ry mc1 = Ok [] ->
       find_similar_years w self ry mc2 = Ok [])
      /\ (find_similar_quarters w self ry rq mc1 = Ok [] ->
          find_similar_quarters w self ry rq mc2 = Ok [])).
Proof.
  intros Hle; split; [|split; [|intros Hn; split]].
  - rewrite !find_similar_years_loop_app; simpl.
    apply kept_years_lower_threshold, Hle.
  - rewrite !find_similar_quarters_loop_app; simpl.
    apply kept_quarters_lower_threshold, Hle.
  - rewrite !find_similar_years_eq; intros H; injection H as H.
    apply head_positive_nil in H; [|exact Hn].
    assert (E1 : kept_years w self ry mc1 (scanned_years self) = []).
    { apply Permutation_nil.
      rewrite <- H; apply sort_values_desc_perm. }
    pose proof (kept_years_lower_threshold w self ry mc1 mc2
                  (scanned_years self) Hle) as Hincl.
    rewrite E1 in Hincl.
    destruct (kept_years w self ry mc2 (scanned_years self)) as [|r l].
    + now rewrite sort_values_desc_nil, head_nil.
    + destruct (Hincl r (or_introl eq_refl)).
  - rewrite !find_similar_quarters_eq; intros H; injection H as H.
    apply head_positive_nil in H; [|exact Hn].
    assert (E1 : kept_quarters self ry rq mc1 (scanned_years self) = []).
    { apply Permutation_nil.
      rewrite <- H; apply sort_values_desc_perm. }
    pose proof (kept_quarters_lower_threshold self ry rq mc1 mc2
                  (scanned_years self) Hle) as Hincl.
    rewrite E1 in Hincl.
    destruct (kept_quarters self ry rq mc2 (scanned_years self)) as [|r l].
    + now rewrite sort_values_desc_nil, head_nil.
    + destruct (Hincl r (or_introl eq_refl)).
Qed.

End Threshold.

(** X9 at work: the thresholds 0.70 and 0.95 on the sample series. *)
Lemma raising_the_threshold_only_removes_matches_witness :
  incl (find_similar_quarters_loop Sample.matcher 2012 1 (F64.of_ratio 95 100)
                                   [2010; 2011; 2013] [])
       (find_similar_quarters_loop Sample.matcher 2012 1 Sample.min_correlation
                                   [2010; 2011; 2013] []).
Proof.
  assert (Hle : F64.leb Sample.min_correlation (F64.of_ratio 95 100) = true)
    by (vm_compute; reflexivity).
  destruct (@raising_the_threshold_only_removes_matches
              numpy_model pandas_stable
              Sample.end_of_january Sample.matcher 2012 1
              Sample.min_correlation (F64.of_ratio 95 100)
              [2010; 2011; 2013] Hle) as [_ [H _]].
  exact H.
Defined.

(** *** The cutoff *)

Lemma on_or_before_later (m1 d1 m2 d2 : Z) (r : Row) :
  m1 < m2 \/ (m1 = m2 /\ d1 <= d2) ->
  on_or_before m1 d1 r = true -> on_or_before m2 d2 r = true.
Proof.
  unfold on_or_before; intros H.
  rewrite !orb_true_iff, !andb_true_iff, !Z.ltb_lt, !Z.eqb_eq, !Z.leb_le.
  lia.
Qed.

(** X10. The year-to-date extract only grows as the cutoff moves forward in
    the calendar: a year that has fewer than 20 rows up to some month and
    day has fewer than 20 rows at any clock reading on or before that month
    and day, and its correlation with any year is NaN at that reading. *)
Theorem ytd_extract_grows_with_the_cutoff
    {np : Numpy} (w : World) (self : PatternMatcher) (y other m2 d2 : Z) :
  month (now w) < m2 \/ (month (now w) = m2 /\ day (now w) <= d2) ->
  (length (ytd_data self y (month (now w)) (day (now w)))
   <= length (ytd_data self y m2 d2))%nat
  /\ ((length (ytd_data self y m2 d2) < 20)%nat ->
      calculate_ytd_correlation w self other y = F64.nan).
Proof.
  intros H.
  assert (Hlen : (length (ytd_data self y (month (now w)) (day (now w)))
                  <= length (ytd_data self y m2 d2))%nat).
  { unfold ytd_data; apply filter_length_mono.
    intros r; apply on_or_before_later, H. }
  split; [exact Hlen|].
  intros Hshort; apply calculate_ytd_correlation_short; lia.
Qed.

(** X11. On 31 December the two returns of a row coincide: over a series
    whose months are at most 12 and whose days are at most 31, every row a
    year scan returns on that date has [ytd_return_at_similar_point] equal to
    [year_return]. *)
Theorem on_31_december_ytd_return_is_year_return
    {np : Numpy} {pd : Pandas}
    (w : World) (self : PatternMatcher) (ry : Z) (mc : float) :
  Forall (fun r => month (index r) <= 12 /\ day (index r) <= 31) (data self) ->
  month (now w) = 12 -> day (now w) = 31 ->
  returns_with
    (Forall (fun r => YearRow.ytd_return_at_similar_point r
                      = YearRow.year_return r))
    (find_similar_years w self ry mc).
Proof.
  intros Hcal Hm Hd.
  assert (E : forall y, ytd_data self y 12 31 = filter (in_year y) (data self)).
  { intros y; unfold ytd_data; apply filter_all, Forall_filter.
    eapply Forall_impl; [|exact Hcal]; intros r [H1 H2].
    unfold on_or_before.
    rewrite orb_true_iff, andb_true_iff, Z.ltb_lt, Z.eqb_eq, Z.leb_le; lia. }
  rewrite find_similar_years_eq; simpl.
  apply Forall_forall; intros r H.
  apply returned_year_row, year_candidate_spec in H.
  destruct H as [_ [_ [Ec [Hnan [_ [Hyr Hytd]]]]]]; rewrite Ec in Hnan.
  apply calculate_ytd_correlation_defined in Hnan; destruct Hnan as [_ Hlen].
  rewrite Hytd; unfold _get_ytd_return, get_ytd_return_try.
  fold (ytd_data self (YearRow.year r) (month (now w)) (day (now w))).
  rewrite Hm, Hd, E in *.
  destruct (Nat.ltb_spec 1 (length (filter (in_year (YearRow.year r))
                                           (data self)))); [|lia].
  rewrite Hyr; reflexivity.
Qed.

(** X10 at work: 10 and 31 January in the ten-session year 2014. *)
Lemma ytd_extract_grows_with_the_cutoff_witness :
  (length (ytd_data Sample.matcher 2014 1 10)
   <= length (ytd_data Sample.matcher 2014 1 31))%nat
  /\ calculate_ytd_correlation Sample.tenth_of_january Sample.matcher
                               2012 2014 = F64.nan.
Proof.
  assert (Hcut : month (now Sample.tenth_of_january) < 1
                 \/ (month (now Sample.tenth_of_january) = 1
                     /\ day (now Sample.tenth_of_january) <= 31))
    by (simpl; lia).
  destruct (@ytd_extract_grows_with_the_cutoff numpy_model
              Sample.tenth_of_january Sample.matcher 2014 2012 1 31 Hcut)
    as [Hlen Hnan].
  split; [exact Hlen | apply Hnan; vm_compute; lia].
Defined.

(** X11 at work: the sample series read on 31 December. *)
Lemma on_31_december_ytd_return_is_year_return_witness :
  returns_with
    (Forall (fun r => YearRow.ytd_return_at_similar_point r
                      = YearRow.year_return r))
    (find_similar_years
       {| now := {| year := 2012; month := 12; day := 31 |};
          TOP_N_SIMILAR := 5 |}
       Sample.matcher 2012 Sample.min_correlation).
Proof.
  apply (on_31_december_ytd_return_is_year_return
           {| now := {| year := 2012; month := 12; day := 31 |};
              TOP_N_SIMILAR := 5 |}
           Sample.matcher 2012 Sample.min_correlation);
    [|reflexivity|reflexivity].
  vm_compute; repeat constructor; discriminate.
Defined.

(* ================================================================== *)
(** ** The two return helpers and the arrays handed to [np.corrcoef] *)
(* ================================================================== *)

Lemma boolean_index_valid_mask (a b : list float) :
  length (boolean_index a (valid_mask a b)) = mask_sum (valid_mask a b)
  /\ length (boolean_index b (valid_mask a b)) = mask_sum (valid_mask a b)
  /\ Forall (fun x => F64.isnan x = false)
            (boolean_index a (valid_mask a b))
  /\ Forall (fun x => F64.isnan x = false)
            (boolean_index b (valid_mask a b)).
Proof.
  unfold valid_mask, mask_sum; revert b.
  induction a as [|x a IH]; intros [|y b]; cbn [combine map boolean_index filter];
    try (repeat split; constructor).
  destruct (IH b) as [H1 [H2 [H3 H4]]].
  cbn [fst snd].
  destruct (F64.isnan x) eqn:Ex, (F64.isnan y) eqn:Ey; cbn [orb negb];
    cbn [length]; repeat split; auto.
Qed.

Section Helpers.

Context {np : Numpy}.

(** X12. Over positive finite prices the return helpers answer NaN exactly
    when their extract has fewer than two rows: [_get_ytd_return] for the
    extract of a year up to a month and day, [_get_quarter_return] for the
    extract of a quarter. *)
Theorem return_helpers_are_nan_only_below_two_rows
    (self : PatternMatcher) (y m d q : Z) :
  Forall (fun r => F64.positive_finite (adjusted_close r)) (data self) ->
  (F64.isnan (_get_ytd_return self y m d) = true
   <-> (length (ytd_data self y m d) <= 1)%nat)
  /\
  (F64.isnan (_get_quarter_return self y q) = true
   <-> (length (get_quarter_data self y q) <= 1)%nat).
Proof.
  intros Hpos.
  assert (Hgen : forall dd : DataFrame,
             Forall (fun r => F64.positive_finite (adjusted_close r)) dd ->
             (F64.isnan
                (try_except
                   (if (1 <? length dd)%nat then total_return dd
                    else Ok F64.nan) F64.nan) = true
              <-> (length dd <= 1)%nat)).
  { intros dd Hdd.
    destruct (Nat.ltb_spec 1 (length dd)) as [Hlt|Hge].
    - assert (Hne : dd <> []) by (apply nonempty_of_length; lia).
      pose proof (total_return_not_nan dd Hne Hdd) as Hr.
      destruct (total_return dd); simpl in *; [|contradiction].
      rewrite Hr; split; [discriminate | lia].
    - simpl; split; [lia | reflexivity]. }
  split.
  - apply (Hgen (ytd_data self y m d)).
    apply Forall_filter, Forall_filter, Hpos.
  - apply (Hgen (get_quarter_data self y q)).
    apply Forall_filter, Forall_filter, Hpos.
Qed.

(** X13. [np.corrcoef] is only ever handed two arrays of one and the same
    length, that length at least the minimum (20 at year level, 15 at quarter
    level), and free of NaN: each primitive either answers NaN without
    calling it, or its [try] block is the call on two such arrays followed by
    the reading of entry [0, 1]. *)
Theorem corrcoef_gets_equal_length_nan_free_arrays
    (w : World) (self : PatternMatcher) (year1 q1 year2 q2 : Z) :
  (calculate_ytd_correlation_try w self year1 year2 = Ok F64.nan
   \/ exists a b,
        calculate_ytd_correlation_try w self year1 year2
        = (c <- corrcoef a b ;; getitem2 c 0 1)
        /\ length a = length b /\ (20 <= length a)%nat
        /\ Forall (fun x => F64.isnan x = false) a
        /\ Forall (fun x => F64.isnan x = false) b)
  /\
  (calculate_quarterly_correlation_try self year1 q1 year2 q2 = Ok F64.nan
   \/ exists a b,
        calculate_quarterly_correlation_try self year1 q1 year2 q2
        = (c <- corrcoef a b ;; getitem2 c 0 1)
        /\ length a = length b /\ (15 <= length a)%nat
        /\ Forall (fun x => F64.isnan x = false) a
        /\ Forall (fun x => F64.isnan x = false) b).
Proof.
  split.
  - unfold calculate_ytd_correlation_try.
    destruct (_ <? 20)%nat; [left; reflexivity|].
    match goal with
    | |- context [valid_mask ?a ?b] =>
        destruct (boolean_index_valid_mask a b) as [H1 [H2 [H3 H4]]];
        destruct (Nat.ltb_spec (mask_sum (valid_mask a b)) 20);
        [left; reflexivity|];
        right; exists (boolean_index a (valid_mask a b)),
                      (boolean_index b (valid_mask a b))
    end.
    repeat split; auto; lia.
  - unfold calculate_quarterly_correlation_try.
    destruct (_ || _); [left; reflexivity|].
    match goal with
    | |- context [valid_mask ?a ?b] =>
        destruct (boolean_index_valid_mask a b) as [H1 [H2 [H3 H4]]];
        destruct (Nat.ltb_spec (mask_sum (valid_mask a b)) 15);
        [left; reflexivity|];
        right; exists (boolean_index a (valid_mask a b)),
                      (boolean_index b (valid_mask a b))
    end.
    repeat split; auto; lia.
Qed.

End Helpers.

(** X12 at work: 4 January 2012 is the only session of 2012 up to that day,
    so the year-to-date return is NaN. *)
Lemma return_helpers_are_nan_only_below_two_rows_witness :
  F64.isnan (_get_ytd_return Sample.matcher 2012 1 4) = true.
Proof.
  assert (Hpos : Forall (fun r => F64.positive_finite (adjusted_close r))
                        (data Sample.matcher))
    by (vm_compute; repeat constructor).
  destruct (return_helpers_are_nan_only_below_two_rows
              Sample.matcher 2012 1 4 1 Hpos) as [[_ H] _].
  apply H; vm_compute; lia.
Defined.

(* ================================================================== *)
(** ** The comparison charts *)
(* ================================================================== *)

(** A finite non-zero number divided by itself is exactly 1, so a curve
    measured against its own first price starts at exactly +0. *)
Lemma div_self (s : bool) (m : positive) (e : Z) :
  F64.div (S754_finite s m e) (S754_finite s m e) = F64.one.
Proof.
  unfold F64.div, SFdiv, SFdiv_core_binary.
  rewrite !Z.sub_diag.
  change (Z.min (fexp F64.prec F64.emax 0) 0) with (-53).
  change (0 - -53) with 53.
  cbv iota beta.
  rewrite Z.shiftl_mul_pow2 by lia.
  assert (E : Z.div_eucl (Z.pos m * 2 ^ 53) (Z.pos m) = (2 ^ 53, 0)).
  { pose proof (Z.div_mul (2 ^ 53) (Z.pos m) ltac:(lia)) as Hq.
    pose proof (Z.mod_mul (2 ^ 53) (Z.pos m) ltac:(lia)) as Hr.
    rewrite (Z.mul_comm (2 ^ 53)) in Hq, Hr.
    unfold Z.div, Z.modulo in Hq, Hr.
    destruct (Z.div_eucl (Z.pos m * 2 ^ 53) (Z.pos m)) as [q r].
    cbn [fst snd] in Hq, Hr; rewrite Hq, Hr; reflexivity. }
  rewrite E.
  assert (L : new_location (Z.pos m) 0 = loc_Exact).
  { unfold new_location; destruct (Z.even (Z.pos m)); reflexivity. }
  rewrite L.
  destruct s; vm_compute; reflexivity.
Qed.

Lemma pct_from_first_ok (dd : DataFrame) :
  dd <> [] -> exists ys, pct_from_first dd = Ok ys /\ length ys = length dd.
Proof.
  destruct dd as [|r dd]; [congruence|]; intros _.
  eexists; split; [reflexivity|].
  now rewrite !length_map.
Qed.

Lemma drawn_from_shape (d : DataFrame) (t : go.Scatter) :
  drawn_from d t ->
  indexed_by_position t
  /\ (Forall (fun r => F64.positive_finite (adjusted_close r)) d ->
      starts_at_zero t).
Proof.
  intros [dd [Hne [Hincl [Hy Hx]]]].
  destruct dd as [|r dd]; [congruence|].
  unfold pct_from_first in Hy; simpl in Hy; injection Hy as Hy.
  split.
  - unfold indexed_by_position; rewrite Hx, <- Hy; unfold range_index.
    simpl; now rewrite !length_map.
  - intros Hpos; unfold starts_at_zero; rewrite <- Hy; simpl.
    rewrite Forall_forall in Hpos.
    specialize (Hpos r (Hincl r (or_introl eq_refl))).
    destruct (adjusted_close r) as [| | |[] m e]; try contradiction.
    rewrite div_self; reflexivity.
Qed.

Lemma similar_color_ok (idx : Z) :
  exists c, similar_color idx = Ok c /\ In c Config.COLOR_SIMILAR.
Proof.
  unfold similar_color.
  assert (H : (Z.to_nat (idx mod Z.of_nat (length Config.COLOR_SIMILAR))
               < length Config.COLOR_SIMILAR)%nat).
  { pose proof (Z.mod_pos_bound idx
                  (Z.of_nat (length Config.COLOR_SIMILAR)) ltac:(simpl; lia)).
    lia. }
  apply nth_error_Some in H.
  destruct (nth_error Config.COLOR_SIMILAR _) as [c|] eqn:E; [|congruence].
  exists c; split; [reflexivity | eapply nth_error_In, E].
Qed.

Section ChartFacts.

Context {fmt : Formatting}.

Lemma yearly_chart_loop_ok (d : DataFrame) (sim : list (Z * YearRow.t)) :
  Forall (fun lr => filter (in_year (YearRow.year (snd lr))) d <> []) sim ->
  forall fig,
  exists added,
    yearly_chart_loop d sim fig = Ok (fig ++ added)
    /\ length added = length sim
    /\ Forall (drawn_from d) added
    /\ Forall (fun t => In (go.line_color t) Config.COLOR_SIMILAR) added.
Proof.
  induction 1 as [|lr sim Hne Hsim IH]; intros fig.
  - exists []; simpl; rewrite app_nil_r; auto.
  - cbn [yearly_chart_loop]; unfold yearly_chart_step.
    destruct (pct_from_first_ok _ Hne) as [ys [Ey Hlen]].
    destruct (similar_color_ok (fst lr)) as [c [Ec Hc]].
    rewrite Ey, Ec; cbn [bind].
    destruct (IH (fig ++ [similar_trace
                            (filter (in_year (YearRow.year (snd lr))) d) ys
                            (similar_name (str_of_int (YearRow.year (snd lr)))
                                          (YearRow.correlation (snd lr))) c]))
      as [added [E [Hl [Hd Hcol]]]].
    eexists (_ :: added); rewrite E, <- app_assoc; simpl.
    repeat split; auto.
    constructor; [|exact Hd].
    eexists; repeat split; [exact Hne | | exact Ey].
    intros r Hr; apply filter_In in Hr; tauto.
Qed.

Lemma yearly_chart_loop_raises (d : DataFrame) (sim : list (Z * YearRow.t)) :
  Exists (fun lr => filter (in_year (YearRow.year (snd lr))) d = []) sim ->
  forall fig, yearly_chart_loop d sim fig = Raise IndexError.
Proof.
  induction sim as [|lr sim IH]; intros H fig; [inversion H|].
  cbn [yearly_chart_loop]; unfold yearly_chart_step.
  destruct (filter (in_year (YearRow.year (snd lr))) d) as [|r dd] eqn:E.
  - reflexivity.
  - destruct (pct_from_first_ok (r :: dd)) as [ys [Ey _]]; [discriminate|].
    destruct (similar_color_ok (fst lr)) as [c [Ec _]].
    rewrite Ey, Ec; cbn [bind].
    apply IH; inversion H; subst; [congruence | assumption].
Qed.

Lemma quarterly_chart_loop_ok
    (matcher : PatternMatcher) (sim : list (Z * QuarterRow.t)) :
  forall fig,
  exists added,
    quarterly_chart_loop matcher sim fig = Ok (fig ++ added)
    /\ length added
       = length (filter
                   (fun lr =>
                      negb (empty (get_quarter_data
                                     matcher (QuarterRow.year (snd lr))
                                     (QuarterRow.quarter (snd lr)))))
                   sim)
    /\ Forall (drawn_from (data matcher)) added.
Proof.
  induction sim as [|lr sim IH]; intros fig.
  - exists []; simpl; rewrite app_nil_r; auto.
  - cbn [quarterly_chart_loop filter]; unfold quarterly_chart_step.
    destruct (get_quarter_data matcher (QuarterRow.year (snd lr))
                               (QuarterRow.quarter (snd lr)))
      as [|r dd] eqn:E; cbn [empty negb bind].
    + apply IH.
    + destruct (pct_from_first_ok (r :: dd)) as [ys [Ey _]]; [discriminate|].
      destruct (similar_color_ok (fst lr)) as [c [Ec _]].
      rewrite Ey, Ec; cbn [bind].
      destruct (IH (fig ++ [similar_trace (r :: dd) ys
                              (similar_name (QuarterRow.year_quarter (snd lr))
                                            (QuarterRow.correlation (snd lr)))
                              c]))
        as [added [E' [Hl Hd]]].
      eexists (_ :: added); rewrite E', <- app_assoc; simpl.
      repeat split; auto.
      constructor; [|exact Hd].
      exists (r :: dd); repeat split; [discriminate | | exact Ey].
      intros r' Hr'; rewrite <- E in Hr'.
      unfold get_quarter_data in Hr'.
      apply filter_In in Hr'; destruct Hr' as [Hr' _].
      apply filter_In in Hr'; tauto.
Qed.

Lemma yearly_chart_count
    (w : World) (d : DataFrame) (ticker : string)
    (similar_years : list (Z * YearRow.t)) :
  filter (in_year (year (now w))) d <> [] ->
  Forall (fun lr => filter (in_year (YearRow.year (snd lr))) d <> [])
         similar_years ->
  returns_with
    (fun fig => length (go.traces fig) = S (length similar_years))
    (create_yearly_comparison_chart w d ticker similar_years).
Proof.
  intros Hcur Hsim; unfold create_yearly_comparison_chart.
  destruct (pct_from_first_ok _ Hcur) as [ys [Ey _]].
  rewrite Ey; cbn [bind].
  destruct (yearly_chart_loop_ok d similar_years Hsim
              [current_trace (filter (in_year (year (now w))) d) ys
                 ("<b>" ++ str_of_int (year (now w)) ++ " (Corrente)</b>")])
    as [added [E [Hl _]]].
  rewrite E; simpl; rewrite Hl; reflexivity.
Qed.

(** X14. [create_yearly_comparison_chart] raises IndexError as soon as the
    series has no row of the clock's year, or of the year of one of the
    listed rows; otherwise it returns a figure with one trace for the
    current year followed by one trace per listed row. *)
Theorem yearly_chart_raises_on_a_year_without_rows
    (w : World) (d : DataFrame) (ticker : string)
    (similar_years : list (Z * YearRow.t)) :
  (filter (in_year (year (now w))) d = [] ->
   create_yearly_comparison_chart w d ticker similar_years = Raise IndexError)
  /\
  (Exists (fun lr => filter (in_year (YearRow.year (snd lr))) d = [])
          similar_years ->
   create_yearly_comparison_chart w d ticker similar_years = Raise IndexError)
  /\
  (filter (in_year (year (now w))) d <> [] ->
   Forall (fun lr => filter (in_year (YearRow.year (snd lr))) d <> [])
          similar_years ->
   returns_with
     (fun fig => length (go.traces fig) = S (length similar_years))
     (create_yearly_comparison_chart w d ticker similar_years)).
Proof.
  unfold create_yearly_comparison_chart; repeat split.
  - intros ->; reflexivity.
  - intros H.
    destruct (filter (in_year (year (now w))) d) as [|r dd] eqn:E;
      [reflexivity|].
    destruct (pct_from_first_ok (r :: dd)) as [ys [Ey _]]; [discriminate|].
    rewrite Ey; cbn [bind].
    rewrite (yearly_chart_loop_raises d similar_years H); reflexivity.
  - apply yearly_chart_count.
Qed.

Lemma quarterly_chart_count
    (w : World) (d : DataFrame) (ticker : string)
    (similar_quarters : list (Z * QuarterRow.t)) (matcher : PatternMatcher) :
  returns_with
    (fun fig =>
       length (go.traces fig)
       = (length (filter (fun dd => negb (empty dd))
                         [get_quarter_data matcher (year (now w))
                                           (current_quarter w)])
          + length (filter
                      (fun lr =>
                         negb (empty (get_quarter_data
                                        matcher (QuarterRow.year (snd lr))
                                        (QuarterRow.quarter (snd lr)))))
                      similar_quarters))%nat)
    (create_quarterly_comparison_chart w d ticker similar_quarters matcher).
Proof.
  unfold create_quarterly_comparison_chart.
  fold (current_quarter w).
  destruct (get_quarter_data matcher (year (now w)) (current_quarter w))
    as [|r dd] eqn:E; cbn [empty negb bind filter].
  - destruct (quarterly_chart_loop_ok matcher similar_quarters [])
      as [added [E' [Hl _]]].
    rewrite E'; simpl; exact Hl.
  - destruct (pct_from_first_ok (r :: dd)) as [ys [Ey _]]; [discriminate|].
    rewrite Ey; cbn [bind].
    match goal with
    | |- context [quarterly_chart_loop matcher similar_quarters ?fig] =>
        destruct (quarterly_chart_loop_ok matcher similar_quarters fig)
          as [added [E' [Hl _]]]
    end.
    rewrite E'; simpl; rewrite Hl; reflexivity.
Qed.

(** X15. [create_quarterly_comparison_chart] never raises: a current quarter
    or a listed quarter without rows is skipped, and the figure holds one
    trace per period that has rows. *)
Theorem quarterly_chart_skips_quarters_without_rows
    (w : World) (d : DataFrame) (ticker : string)
    (similar_quarters : list (Z * QuarterRow.t)) (matcher : PatternMatcher) :
  returns_with
    (fun fig =>
       length (go.traces fig)
       = (length (filter (fun dd => negb (empty dd))
                         [get_quarter_data matcher (year (now w))
                                           (current_quarter w)])
          + length (filter
                      (fun lr =>
                         negb (empty (get_quarter_data
                                        matcher (QuarterRow.year (snd lr))
                                        (QuarterRow.quarter (snd lr)))))
                      similar_quarters))%nat)
    (create_quarterly_comparison_chart w d ticker similar_quarters matcher).
Proof.
  unfold create_quarterly_comparison_chart.
  fold (current_quarter w).
  destruct (get_quarter_data matcher (year (now w)) (current_quarter w))
    as [|r dd] eqn:E; cbn [empty negb bind filter].
  - destruct (quarterly_chart_loop_ok matcher similar_quarters [])
      as [added [E' [Hl _]]].
    rewrite E'; simpl; exact Hl.
  - destruct (pct_from_first_ok (r :: dd)) as [ys [Ey _]]; [discriminate|].
    rewrite Ey; cbn [bind].
    match goal with
    | |- context [quarterly_chart_loop matcher similar_quarters ?fig] =>
        destruct (quarterly_chart_loop_ok matcher similar_quarters fig)
          as [added [E' [Hl _]]]
    end.
    rewrite E'; simpl; rewrite Hl; reflexivity.
Qed.

(** X16. Every curve of either chart is indexed by position ([x] counts the
    trading days from 0) and, over positive finite prices, starts at exactly
    0%: the first point of each trace is [+0.0]. *)
Theorem chart_curves_start_at_zero
    (w : World) (d : DataFrame) (ticker : string)
    (similar_years : list (Z * YearRow.t))
    (similar_quarters : list (Z * QuarterRow.t)) (matcher : PatternMatcher)
    (fig : go.Figure) :
  (create_yearly_comparison_chart w d ticker similar_years = Ok fig ->
   Forall indexed_by_position (go.traces fig)
   /\ (Forall (fun r => F64.positive_finite (adjusted_close r)) d ->
       Forall starts_at_zero (go.traces fig)))
  /\
  (create_quarterly_comparison_chart w d ticker similar_quarters matcher
   = Ok fig ->
   Forall indexed_by_position (go.traces fig)
   /\ (Forall (fun r => F64.positive_finite (adjusted_close r))
              (data matcher) ->
       Forall starts_at_zero (go.traces fig))).
Proof.
  split.
  - unfold create_yearly_comparison_chart.
    destruct (filter (in_year (year (now w))) d) as [|r dd] eqn:E;
      [discriminate|].
    destruct (pct_from_first_ok (r :: dd)) as [ys [Ey _]]; [discriminate|].
    rewrite Ey; cbn [bind].
    destruct (Exists_dec
                (fun lr => filter (in_year (YearRow.year (snd lr))) d = [])
                similar_years) as [Hex|Hall].
    { intros lr; destruct (filter (in_year (YearRow.year (snd lr))) d);
        [left; reflexivity | right; discriminate]. }
    + rewrite (yearly_chart_loop_raises d similar_years Hex); discriminate.
    + apply Forall_Exists_neg in Hall.
      match goal with
      | |- context [yearly_chart_loop d similar_years ?f0] =>
          destruct (yearly_chart_loop_ok d similar_years Hall f0)
            as [added [E' [_ [Hd _]]]]
      end.
      rewrite E'; cbn [bind]; intros H; injection H as <-; cbn [go.traces].
      assert (Hall' : Forall (drawn_from d)
                             ([current_trace (r :: dd) ys
                                 ("<b>" ++ str_of_int (year (now w))
                                  ++ " (Corrente)</b>")] ++ added)).
      { apply Forall_app; split; [|exact Hd].
        constructor; [|constructor].
        exists (r :: dd); repeat split; [discriminate | | exact Ey].
        intros r' Hr'; rewrite <- E in Hr'; apply filter_In in Hr'; tauto. }
      split; [|intros Hpos];
        (eapply Forall_impl; [|exact Hall']); intros t Ht;
        apply drawn_from_shape in Ht; tauto.
  - unfold create_quarterly_comparison_chart.
    set (cur := get_quarter_data matcher (year (now w))
                                 ((month (now w) - 1) / 3 + 1)).
    assert (Hcur : exists f0,
               (if negb (empty cur)
                then ys <- pct_from_first cur ;;
                     Ok [current_trace cur ys
                           ("<b>" ++ str_of_int (year (now w)) ++ "-Q"
                            ++ str_of_int ((month (now w) - 1) / 3 + 1)
                            ++ " (Corrente)</b>")]
                else Ok []) = Ok f0
               /\ Forall (drawn_from (data matcher)) f0).
    { destruct cur as [|r dd] eqn:E; cbn [empty negb].
      - exists []; split; [reflexivity | constructor].
      - destruct (pct_from_first_ok (r :: dd)) as [ys [Ey _]];
          [discriminate|].
        rewrite Ey; cbn [bind]; eexists; split; [reflexivity|].
        constructor; [|constructor].
        exists (r :: dd); repeat split; [discriminate | | exact Ey].
        intros r' Hr'; rewrite <- E in Hr'; subst cur.
        unfold get_quarter_data in Hr'.
        apply filter_In in Hr'; destruct Hr' as [Hr' _].
        apply filter_In in Hr'; tauto. }
    destruct Hcur as [f0 [E0 Hf0]]; rewrite E0; cbn [bind].
    destruct (quarterly_chart_loop_ok matcher similar_quarters f0)
      as [added [E' [_ Hd]]].
    rewrite E'; cbn [bind]; intros H; injection H as <-; cbn [go.traces].
    assert (Hall' : Forall (drawn_from (data matcher)) (f0 ++ added))
      by (apply Forall_app; split; assumption).
    split; [|intros Hpos];
      (eapply Forall_impl; [|exact Hall']); intros t Ht;
      apply drawn_from_shape in Ht; tauto.
Qed.

End ChartFacts.

Example format_2f_examples :
  map format_2f
      [F64.of_ratio 70 100; F64.of_ratio (-5) 1000; F64.of_ratio 12345 1000;
       F64.of_ratio 1 8; F64.of_ratio 3 8; F64.of_Z 0; F64.nan;
       S754_zero true; F64.of_ratio (-1) 1000; S754_infinity true;
       F64.of_Z (10 ^ 22); F64.of_ratio 2675 1000; F64.of_ratio 995 1000;
       F64.of_ratio 99995 1000; F64.of_ratio (-15) 10]
  = ["0.70"; "-0.01"; "12.35"; "0.12"; "0.38"; "0.00"; "nan";
     "-0.00"; "-0.00"; "-inf"; "10000000000000000000000.00"; "2.67"; "0.99";
     "100.00"; "-1.50"]%string
  /\ upper "spy.us" = "SPY.US"%string.
Proof. split; vm_compute; reflexivity. Qed.

(** The yearly chart of the sample series on 31 January 2012: three traces,
    each starting at 0; 2012 ends at -1.96%, 2010 and 2011 at -0.99%. *)
Example sample_yearly_chart :
  returns_with
    (fun fig =>
       map (fun t => (go.name t, go.line_color t, hd_error (go.y t),
                      option_map format_2f (hd_error (rev (go.y t)))))
           (go.traces fig)
       = [ ("<b>2012 (Corrente)</b>", "#00ff00", Some (S754_zero false),
            Some "-1.96");
           ("2010 (r=0.99)", "#ff9500", Some (S754_zero false),
            Some "-0.99");
           ("2011 (r=0.99)", "#ff6b6b", Some (S754_zero false),
            Some "-0.99") ]%string)
    (rows <- find_similar_years Sample.end_of_january Sample.matcher 2012
                                Sample.min_correlation ;;
     create_yearly_comparison_chart
       Sample.end_of_january Sample.frame "spy" (combine [0; 1] rows)).
Proof. vm_compute; reflexivity. Qed.

(* ================================================================== *)
(** ** From the scans to the charts and the tables *)
(* ================================================================== *)


Section Presentation.

Context {np : Numpy} {pd : Pandas} {fmt : Formatting}.

Lemma year_candidate_has_rows
    (w : World) (self : PatternMatcher) (ry : Z) (mc : float) (y : Z)
    (r : YearRow.t) :
  In r (year_candidate w self ry mc y) ->
  filter (in_year ry) (data self) <> []
  /\ filter (in_year (YearRow.year r)) (data self) <> [].
Proof.
  intros H; apply year_candidate_spec in H.
  destruct H as [E [_ [Ec [Hnan _]]]]; rewrite Ec in Hnan.
  apply calculate_ytd_correlation_defined in Hnan; destruct Hnan as [H1 H2].
  pose proof (ytd_data_year_data self ry (month (now w)) (day (now w))).
  pose proof (ytd_data_year_data self y (month (now w)) (day (now w))).
  rewrite E; split; apply nonempty_of_length; lia.
Qed.

Lemma quarter_candidate_has_rows
    (self : PatternMatcher) (ry rq : Z) (mc : float) (y q : Z)
    (r : QuarterRow.t) :
  In r (quarter_candidate self ry rq mc y q) ->
  empty (get_quarter_data self ry rq) = false
  /\ empty (get_quarter_data self (QuarterRow.year r) (QuarterRow.quarter r))
     = false.
Proof.
  intros H; apply quarter_candidate_spec in H.
  destruct H as [E1 [E2 [_ [_ [Ec [Hnan _]]]]]]; rewrite Ec in Hnan.
  apply calculate_quarterly_correlation_defined in Hnan.
  destruct Hnan as [H1 H2]; rewrite E1, E2.
  destruct (get_quarter_data self ry rq), (get_quarter_data self y q);
    simpl in *; try lia; auto.
Qed.

(** X17. The charts are always built for what the scans return: when the
    year scan for the clock's year returns rows, whatever index labels they
    carry, [create_yearly_comparison_chart] does not raise and draws one
    trace for the current year and one per row; and when the quarter scan
    for the clock's year and quarter returns rows,
    [create_quarterly_comparison_chart] draws the current quarter and every
    row, skipping none. *)
Theorem charts_draw_every_returned_period
    (w : World) (self : PatternMatcher) (ticker : string) (mc : float) :
  returns_with
    (fun rows =>
       rows <> [] ->
       forall labels, length labels = length rows ->
         returns_with
           (fun fig => length (go.traces fig) = S (length rows))
           (create_yearly_comparison_chart
              w (data self) ticker (combine labels rows)))
    (find_similar_years w self (year (now w)) mc)
  /\
  returns_with
    (fun rows =>
       rows <> [] ->
       forall labels, length labels = length rows ->
         returns_with
           (fun fig => length (go.traces fig) = S (length rows))
           (create_quarterly_comparison_chart
              w (data self) ticker (combine labels rows) self))
    (find_similar_quarters w self (year (now w)) (current_quarter w) mc).
Proof.
  rewrite find_similar_years_eq, find_similar_quarters_eq; simpl; split.
  - set (rows := head _ _); intros Hne labels Hlen.
    assert (Hrows : forall r, In r rows ->
                filter (in_year (year (now w))) (data self) <> []
                /\ filter (in_year (YearRow.year r)) (data self) <> []).
    { intros r Hr; subst rows.
      apply returned_year_row in Hr.
      exact (year_candidate_has_rows _ _ _ _ _ _ Hr). }
    pose proof (yearly_chart_count w (data self) ticker (combine labels rows))
      as Hc.
    rewrite length_combine, Hlen, Nat.min_id in Hc.
    apply Hc.
    + destruct rows as [|r rows']; [congruence|].
      apply (Hrows r); simpl; auto.
    + apply Forall_forall; intros lr Hlr.
      destruct lr as [l r]; apply in_combine_r in Hlr.
      apply (Hrows r Hlr).
  - set (rows := head _ _); intros Hne labels Hlen.
    assert (Hrows : forall r, In r rows ->
                empty (get_quarter_data self (year (now w))
                                        (current_quarter w)) = false
                /\ empty (get_quarter_data self (QuarterRow.year r)
                                           (QuarterRow.quarter r)) = false).
    { intros r Hr; subst rows.
      apply returned_quarter_row in Hr.
      exact (quarter_candidate_has_rows _ _ _ _ _ _ _ Hr). }
    pose proof (quarterly_chart_count w (data self) ticker
                  (combine labels rows) self) as Hc.
    rewrite (filter_all _ (combine labels rows)) in Hc.
    + rewrite length_combine, Hlen, Nat.min_id in Hc.
      destruct rows as [|r rows']; [congruence|].
      destruct (Hrows r (or_introl eq_refl)) as [Hcur _].
      cbn [filter] in Hc; rewrite Hcur in Hc; exact Hc.
    + apply Forall_forall; intros lr Hlr.
      destruct lr as [l r]; apply in_combine_r in Hlr.
      destruct (Hrows r Hlr) as [_ H]; simpl; rewrite H; reflexivity.
Qed.



End Presentation.

(** X14 at work: read in 2020, a year the sample series does not reach, the
    yearly chart raises. *)
Lemma yearly_chart_raises_on_a_year_without_rows_witness :
  create_yearly_comparison_chart
    {| now := {| year := 2020; month := 1; day := 31 |}; TOP_N_SIMILAR := 5 |}
    Sample.frame "spy" [] = Raise IndexError.
Proof.
  destruct (yearly_chart_raises_on_a_year_without_rows
              {| now := {| year := 2020; month := 1; day := 31 |};
                 TOP_N_SIMILAR := 5 |}
              Sample.frame "spy" []) as [H _].
  apply H; vm_compute; reflexivity.
Defined.

(** X16 at work on the figure of the sample's current year. *)
Lemma chart_curves_start_at_zero_witness :
  Forall indexed_by_position (go.traces sample_current_year_figure)
  /\ Forall starts_at_zero (go.traces sample_current_year_figure).
Proof.
  assert (E : create_yearly_comparison_chart
                Sample.end_of_january Sample.frame "spy" []
              = Ok sample_current_year_figure) by (vm_compute; reflexivity).
  assert (Hpos : Forall (fun r => F64.positive_finite (adjusted_close r))
                        Sample.frame) by (vm_compute; repeat constructor).
  destruct (chart_curves_start_at_zero
              Sample.end_of_january Sample.frame "spy" [] [] Sample.matcher
              sample_current_year_figure) as [H _].
  destruct (H E) as [H1 H2]; split; [exact H1 | exact (H2 Hpos)].
Defined.

(** X17 at work: the two rows of the sample's year scan, labelled 0 and 1,
    give a chart of three traces. *)
Lemma charts_draw_every_returned_period_witness :
  returns_with
    (fun fig => length (go.traces fig) = S (length sample_year_rows))
    (create_yearly_comparison_chart
       Sample.end_of_january (data Sample.matcher) "spy"
       (combine [0; 1] sample_year_rows)).
Proof.
  assert (E : find_similar_years Sample.end_of_january Sample.matcher
                                 (year (now Sample.end_of_january))
                                 Sample.min_correlation
              = Ok sample_year_rows) by (vm_compute; reflexivity).
  destruct (charts_draw_every_returned_period
              Sample.end_of_january Sample.matcher "spy"
              Sample.min_correlation) as [H _].
  rewrite E in H.
  apply H; [discriminate | reflexivity].
Defined.


(* ================================================================== *)
(** ** The curve of a period ends at the return reported for it *)
(* ================================================================== *)

Lemma iloc_last_map {A B : Type} (f : A -> B) (l : list A) (a : A) :
  iloc_last l = Ok a -> iloc_last (map f l) = Ok (f a).
Proof.
  induction l as [|x l IH]; [discriminate|].
  destruct l as [|x' l]; simpl in *.
  - intros H; injection H as ->; reflexivity.
  - exact IH.
Qed.

Lemma curve_ends_at_total_return (d : DataFrame) (v : float) :
  total_return d = Ok v ->
  returns_with (fun ys => iloc_last ys = Ok v) (pct_from_first d).
Proof.
  unfold total_return, pct_from_first.
  destruct (iloc_last (map adjusted_close d)) as [l|] eqn:El; [|discriminate].
  destruct (iloc_first (map adjusted_close d)) as [f|] eqn:Ef; [|discriminate].
  cbn [bind returns_with]; intros H; injection H as <-.
  apply (iloc_last_map
           (fun p => F64.mul (F64.sub (F64.div p f) F64.one) F64.hundred)).
  exact El.
Qed.

(** X19. The charts and the tables agree: for every row of a year scan the
    curve [create_yearly_comparison_chart] draws for its year ends at the
    row's [year_return], and for every row of a quarter scan the curve
    [create_quarterly_comparison_chart] draws for its quarter ends at the
    row's [quarter_return]. *)
Theorem curves_end_at_the_reported_return
    {np : Numpy} {pd : Pandas}
    (w : World) (self : PatternMatcher) (ry rq : Z) (mc : float) :
  returns_with
    (Forall (fun r =>
       returns_with
         (fun ys => iloc_last ys = Ok (YearRow.year_return r))
         (pct_from_first (filter (in_year (YearRow.year r)) (data self)))))
    (find_similar_years w self ry mc)
  /\
  returns_with
    (Forall (fun r =>
       returns_with
         (fun ys => iloc_last ys = Ok (QuarterRow.quarter_return r))
         (pct_from_first (get_quarter_data self (QuarterRow.year r)
                                           (QuarterRow.quarter r)))))
    (find_similar_quarters w self ry rq mc).
Proof.
  rewrite find_similar_years_eq, find_similar_quarters_eq; simpl.
  split; apply Forall_forall; intros r H.
  - apply returned_year_row, year_candidate_spec in H.
    destruct H as [_ [_ [_ [_ [_ [Hyr _]]]]]].
    apply curve_ends_at_total_return, Hyr.
  - apply returned_quarter_row, quarter_candidate_spec in H.
    destruct H as [_ [_ [_ [_ [E [Hnan [_ Hret]]]]]]]; rewrite E in Hnan.
    apply calculate_quarterly_correlation_defined in Hnan.
    destruct Hnan as [_ Hlen].
    apply curve_ends_at_total_return.
    rewrite Hret; unfold _get_quarter_return, get_quarter_return_try.
    destruct (Nat.ltb_spec 1
                (length (get_quarter_data self (QuarterRow.year r)
                                          (QuarterRow.quarter r))));
      [|lia].
    destruct (total_return_ok (get_quarter_data self (QuarterRow.year r)
                                                (QuarterRow.quarter r)))
      as [l [f [_ [_ Et]]]]; [apply nonempty_of_length; lia|].
    rewrite Et; reflexivity.
Qed.

(* ================================================================== *)
(** ** The frame [fetch_data] builds *)
(* ================================================================== *)

Lemma Series_cumprod_cons (a : float) (l : list float) :
  exists c cs, Series_cumprod (a :: l) = c :: cs.
Proof. unfold Series_cumprod; cbn [map np_cumprod combine]; eauto. Qed.

Lemma derive_frame_cons
    (q : Timestamp * float) (raw : list (Timestamp * float)) :
  exists rest : list (float * float),
    derive_frame (q :: raw)
    = filter (fun r => negb (row_has_nan r))
        (map (fun z : (Timestamp * float) * (float * float) =>
                {| index := fst (fst z);
                   adjusted_close := snd (fst z);
                   returns := fst (snd z);
                   cum_returns := snd (snd z) |})
             (combine raw rest)).
Proof.
  unfold derive_frame.
  cbn [map pct_change].
  destruct (Series_cumprod_cons
              (F64.add F64.one F64.nan)
              (map (fun r => F64.add F64.one r)
                   (map (fun p : float * float =>
                           F64.sub (F64.div (snd p) (fst p)) F64.one)
                        (combine (snd q :: map snd raw) (map snd raw)))))
    as [c [cs E]].
  rewrite E; cbn [map combine filter].
  unfold row_has_nan at 1; cbn [returns fst snd].
  change (F64.isnan F64.nan) with true.
  rewrite orb_true_r; cbn [orb negb].
  eexists; reflexivity.
Qed.

(** X20. The derived columns cost the series its first row: the frame built
    from the raw closes ([pct_change], cumulative product, [dropna]) has at
    most one row less than the raw series, its dates are dates of the raw
    rows after the first, and none of its three columns holds a NaN; a raw
    series of one row or none gives an empty frame, on which building the
    matcher raises. *)
Theorem derived_frame_loses_the_first_row
    (w : World) (raw : list (Timestamp * float)) :
  (length (derive_frame raw) <= length raw - 1)%nat
  /\ incl (map index (derive_frame raw)) (map fst (tl raw))
  /\ Forall (fun r => F64.isnan (adjusted_close r) = false
                      /\ F64.isnan (returns r) = false
                      /\ F64.isnan (cum_returns r) = false)
            (derive_frame raw)
  /\ ((length raw <= 1)%nat ->
      PatternMatcher_init w (derive_frame raw)
      = Raise (ValueError "DataFrame vuoto")).
Proof.
  destruct raw as [|q raw].
  { repeat split; try (intros ? []); constructor. }
  destruct (derive_frame_cons q raw) as [rest E]; rewrite E.
  repeat split.
  - etransitivity; [apply filter_length_le|].
    rewrite length_map, length_combine; simpl; lia.
  - intros i Hi; apply in_map_iff in Hi; destruct Hi as [r [<- Hr]].
    apply filter_In in Hr; destruct Hr as [Hr _].
    apply in_map_iff in Hr; destruct Hr as [[z1 z2] [<- Hz]].
    apply in_combine_l in Hz; simpl.
    apply in_map_iff; exists z1; auto.
  - apply Forall_forall; intros r Hr.
    apply filter_In in Hr; destruct Hr as [_ Hr].
    apply negb_true_iff in Hr; unfold row_has_nan in Hr.
    apply orb_false_iff in Hr; destruct Hr as [Hr H3].
    apply orb_false_iff in Hr; tauto.
  - intros H; destruct raw; [reflexivity | simpl in H; lia].
Qed.

(** X20 at work: a history of a single session. *)
Lemma derived_frame_loses_the_first_row_witness :
  PatternMatcher_init
    Sample.end_of_january
    (derive_frame [({| year := 2012; month := 1; day := 31 |}, F64.of_Z 100)])
  = Raise (ValueError "DataFrame vuoto").
Proof.
  destruct (derived_frame_loses_the_first_row
              Sample.end_of_january
              [({| year := 2012; month := 1; day := 31 |}, F64.of_Z 100)])
    as [_ [_ [_ H]]].
  apply H; simpl; lia.
Defined.

(* ================================================================== *)
(** ** What a coefficient depends on within the series *)
(* ================================================================== *)

(** X21. A coefficient is decided by the rows of its two years alone: two
    series that hold the same rows for [year1] and for [year2] give the same
    year-level coefficient at every clock reading and the same quarter-level
    coefficient for every pair of quarters, whatever else they hold, and the
    same helpers' returns for those years. *)
Theorem coefficient_depends_on_its_two_years_only
    {np : Numpy} (w : World) (self self' : PatternMatcher)
    (year1 q1 year2 q2 m d : Z) :
  filter (in_year year1) (data self) = filter (in_year year1) (data self') ->
  filter (in_year year2) (data self) = filter (in_year year2) (data self') ->
  calculate_ytd_correlation w self year1 year2
  = calculate_ytd_correlation w self' year1 year2
  /\ calculate_quarterly_correlation self year1 q1 year2 q2
     = calculate_quarterly_correlation self' year1 q1 year2 q2
  /\ _get_ytd_return self year1 m d = _get_ytd_return self' year1 m d
  /\ _get_quarter_return self year1 q1 = _get_quarter_return self' year1 q1.
Proof.
  intros H1 H2.
  unfold calculate_ytd_correlation, calculate_ytd_correlation_try,
    calculate_quarterly_correlation, calculate_quarterly_correlation_try,
    _get_ytd_return, get_ytd_return_try,
    _get_quarter_return, get_quarter_return_try,
    ytd_data, get_quarter_data.
  rewrite H1, H2; repeat split; reflexivity.
Qed.

(** X21 at work: the sample series and the sample series without its last
    year agree on 2010 and 2012. *)
Lemma coefficient_depends_on_its_two_years_only_witness :
  calculate_ytd_correlation Sample.end_of_january Sample.matcher 2012 2010
  = calculate_ytd_correlation
      Sample.end_of_january
      {| data := filter (fun r => negb (in_year 2014 r)) Sample.frame;
         current_year := 2012 |}
      2012 2010.
Proof.
  assert (H1 : filter (in_year 2012) (data Sample.matcher)
               = filter (in_year 2012)
                   (data {| data := filter (fun r => negb (in_year 2014 r))
                                           Sample.frame;
                            current_year := 2012 |}))
    by (vm_compute; reflexivity).
  assert (H2 : filter (in_year 2010) (data Sample.matcher)
               = filter (in_year 2010)
                   (data {| data := filter (fun r => negb (in_year 2014 r))
                                           Sample.frame;
                            current_year := 2012 |}))
    by (vm_compute; reflexivity).
  destruct (@coefficient_depends_on_its_two_years_only numpy_model
              Sample.end_of_january Sample.matcher
              {| data := filter (fun r => negb (in_year 2014 r)) Sample.frame;
                 current_year := 2012 |}
              2012 1 2010 1 1 31 H1 H2) as [H _].
  exact H.
Defined.
